(** * RD Assistant — the browser client (src/frontend/app.js)

    A shallow embedding of the chat page's script: its global variables,
    the part of the document it reads and writes, its event handlers and
    the continuations of its asynchronous calls, followed by the properties
    of the client that the specification states.

    Strings are JavaScript strings: finite sequences of UTF-16 code units. *)

From Stdlib Require Import List Arith NArith Bool String Ascii Lia.
Import ListNotations.

Set Implicit Arguments.
Set Warnings "-register-all".

(* ------------------------------------------------------------------ *)
(** ** JavaScript strings *)

Module JsString.

(** A string is the list of its code units. *)
Definition jsstring := list N.

(** An ASCII literal of the source, as code units. *)
Definition lit (s : string) : jsstring :=
  map N_of_ascii (list_ascii_of_string s).

Fixpoint eqb (a b : jsstring) : bool :=
  match a, b with
  | [], [] => true
  | x :: a', y :: b' => N.eqb x y && eqb a' b'
  | _, _ => false
  end.

(** The double quote, which the source writes inside its templates. *)
Definition dquote : jsstring := [34%N].

(** ECMAScript WhiteSpace and LineTerminator code points, the ones
    [String.prototype.trim] strips. *)
Definition isLineTerminator (c : N) : bool :=
  (N.eqb c 10 || N.eqb c 13 || N.eqb c 8232 || N.eqb c 8233)%N.

Definition isWhiteSpace (c : N) : bool :=
  (N.eqb c 9 || N.eqb c 11 || N.eqb c 12 || N.eqb c 32 || N.eqb c 160
   || N.eqb c 5760 || (N.leb 8192 c && N.leb c 8202)
   || N.eqb c 8239 || N.eqb c 8287 || N.eqb c 12288 || N.eqb c 65279)%N.

Definition isTrimmed (c : N) : bool := isWhiteSpace c || isLineTerminator c.

Fixpoint trimStart (s : jsstring) : jsstring :=
  match s with
  | [] => []
  | c :: t => if isTrimmed c then trimStart t else s
  end.

Definition trimEnd (s : jsstring) : jsstring := rev (trimStart (rev s)).

(** [s.trim()] *)
Definition trim (s : jsstring) : jsstring := trimEnd (trimStart s).

End JsString.
Import JsString.

(* ------------------------------------------------------------------ *)
(** ** renderMarkdown

    Four global regular-expression replacements, applied one after the
    other.  A global replacement scans the subject from left to right; at
    each position it tries the pattern, on a match emits the replacement
    and resumes after the match, otherwise copies one code unit. *)

Module Markdown.

(** A pattern tried at the head of the subject: the text of capture
    group 1 and what follows the match. *)
Definition matcher := jsstring -> option (jsstring * jsstring).

Section ReplaceAll.
Variable m : matcher.
Variable subst : jsstring -> jsstring.

Fixpoint replaceFrom (fuel : nat) (s : jsstring) : jsstring :=
  match fuel with
  | O => s
  | S fuel' =>
      match s with
      | [] => []
      | c :: t =>
          match m s with
          | Some (group1, rest) => subst group1 ++ replaceFrom fuel' rest
          | None => c :: replaceFrom fuel' t
          end
      end
  end.

(** [s.replace(/.../g, ...)]: every step consumes at least one code
    unit, so the length of the subject bounds the number of steps. *)
Definition replaceAll (s : jsstring) : jsstring :=
  replaceFrom (List.length s) s.
End ReplaceAll.

Definition star : N := 42.
Definition backtick : N := 96.
Definition newline : N := 10.

(** [(.*?)\*\*] — the shortest run of non-line-terminators followed by
    two stars. *)
Fixpoint lazyUntilStars (s : jsstring) : option (jsstring * jsstring) :=
  match s with
  | [] => None
  | c :: t =>
      match t with
      | d :: rest =>
          if N.eqb c star && N.eqb d star then Some ([], rest)
          else if isLineTerminator c then None
          else match lazyUntilStars t with
               | Some (g, r) => Some (c :: g, r)
               | None => None
               end
      | [] => None
      end
  end.

(** [/\*\*(.*?)\*\*/] *)
Definition boldPattern : matcher := fun s =>
  match s with
  | c :: d :: t => if N.eqb c star && N.eqb d star then lazyUntilStars t else None
  | _ => None
  end.

(** [(.*?)\*] — the shortest run of non-line-terminators followed by a
    star. *)
Fixpoint lazyUntilStar (s : jsstring) : option (jsstring * jsstring) :=
  match s with
  | [] => None
  | c :: t =>
      if N.eqb c star then Some ([], t)
      else if isLineTerminator c then None
      else match lazyUntilStar t with
           | Some (g, r) => Some (c :: g, r)
           | None => None
           end
  end.

(** [/\*(.*?)\*/] *)
Definition italicPattern : matcher := fun s =>
  match s with
  | c :: t => if N.eqb c star then lazyUntilStar t else None
  | [] => None
  end.

(** [[^`]*`] — the longest run of code units other than a backtick,
    which a backtick must follow. *)
Fixpoint untilBacktick (s : jsstring) : option (jsstring * jsstring) :=
  match s with
  | [] => None
  | c :: t =>
      if N.eqb c backtick then Some ([], t)
      else match untilBacktick t with
           | Some (g, r) => Some (c :: g, r)
           | None => None
           end
  end.

(** [/`([^`]+)`/] *)
Definition codePattern : matcher := fun s =>
  match s with
  | c :: t =>
      if N.eqb c backtick then
        match untilBacktick t with
        | Some (x :: g, r) => Some (x :: g, r)
        | _ => None
        end
      else None
  | [] => None
  end.

(** [/\n/] *)
Definition newlinePattern : matcher := fun s =>
  match s with
  | c :: t => if N.eqb c newline then Some ([], t) else None
  | [] => None
  end.

Definition strongTag (g : jsstring) : jsstring :=
  lit "<strong>" ++ g ++ lit "</strong>".

Definition emTag (g : jsstring) : jsstring :=
  lit "<em>" ++ g ++ lit "</em>".

Definition codeTag (g : jsstring) : jsstring :=
  lit "<code style=" ++ dquote
  ++ lit "background-color: rgba(156,163,175,0.2); padding: 0.125rem 0.25rem; border-radius: 0.25rem; font-size: 0.875rem;"
  ++ dquote ++ lit ">" ++ g ++ lit "</code>".

Definition brTag (_ : jsstring) : jsstring := lit "<br>".

Definition replaceBold := replaceAll boldPattern strongTag.
Definition replaceItalic := replaceAll italicPattern emTag.
Definition replaceCode := replaceAll codePattern codeTag.
Definition replaceNewline := replaceAll newlinePattern brTag.

(** [renderMarkdown(text)] for a string [text]. *)
Definition renderMarkdown (text : jsstring) : jsstring :=
  replaceNewline (replaceCode (replaceItalic (replaceBold text))).

End Markdown.
Import Markdown.

(* ------------------------------------------------------------------ *)
(** ** JSON values

    What [res.json()] yields and [JSON.stringify] prints.  The page never
    computes with the numbers of a reply: it prints them and tests them
    for truth.  A number is therefore carried as its numeral, the text
    JavaScript prints for it ([Number::toString]: [1], [0.5],
    [18446744073709552000], [1e+21]; both zeros print as [0]).  An object
    lists its own properties in enumeration order, each key once. *)

Module Json.

Inductive json : Type :=
| JNull
| JBool (b : bool)
| JNum (numeral : jsstring)
| JStr (s : jsstring)
| JArr (items : list json)
| JObj (props : list (jsstring * json)).

(** A JavaScript value as the script sees it: [None] is [undefined]. *)
Definition value := option json.

Definition hexDigit (d : N) : N :=
  if N.ltb d 10 then 48 + d else 87 + d.

(** The escape [\uXXXX], four lower-case hexadecimal digits. *)
Definition unicodeEscape (c : N) : jsstring :=
  [92; 117; hexDigit (N.land (N.shiftr c 12) 15); hexDigit (N.land (N.shiftr c 8) 15);
   hexDigit (N.land (N.shiftr c 4) 15); hexDigit (N.land c 15)]%N.

Definition isHighSurrogate (c : N) : bool := N.leb 55296 c && N.leb c 56319.
Definition isLowSurrogate (c : N) : bool := N.leb 56320 c && N.leb c 57343.

(** One code unit that is not half of a surrogate pair, quoted. *)
Definition quoteUnit (c : N) : jsstring :=
  if N.eqb c 8 then lit "\b"
  else if N.eqb c 9 then lit "\t"
  else if N.eqb c 10 then lit "\n"
  else if N.eqb c 12 then lit "\f"
  else if N.eqb c 13 then lit "\r"
  else if N.eqb c 34 then [92; 34]%N
  else if N.eqb c 92 then [92; 92]%N
  else if N.ltb c 32 || isHighSurrogate c || isLowSurrogate c then unicodeEscape c
  else [c].

Fixpoint quoteBody (s : jsstring) : jsstring :=
  match s with
  | [] => []
  | c :: t =>
      match t with
      | d :: t' =>
          if isHighSurrogate c && isLowSurrogate d then c :: d :: quoteBody t'
          else quoteUnit c ++ quoteBody t
      | [] => quoteUnit c
      end
  end.

(** QuoteJSONString *)
Definition quote (s : jsstring) : jsstring := dquote ++ quoteBody s ++ dquote.

(** [Number::toString] of a number carried as its numeral. *)
Definition numberToString (numeral : jsstring) : jsstring := numeral.

(** [JSON.stringify(v)] *)
Fixpoint JSON_stringify (v : json) : jsstring :=
  match v with
  | JNull => lit "null"
  | JBool true => lit "true"
  | JBool false => lit "false"
  | JNum n => numberToString n
  | JStr s => quote s
  | JArr items =>
      lit "["
      ++ (fix elements (l : list json) : jsstring :=
            match l with
            | [] => []
            | x :: l' =>
                match l' with
                | [] => JSON_stringify x
                | _ :: _ => JSON_stringify x ++ lit "," ++ elements l'
                end
            end) items
      ++ lit "]"
  | JObj props =>
      lit "{"
      ++ (fix members (l : list (jsstring * json)) : jsstring :=
            match l with
            | [] => []
            | (k, x) :: l' =>
                match l' with
                | [] => quote k ++ lit ":" ++ JSON_stringify x
                | _ :: _ => quote k ++ lit ":" ++ JSON_stringify x ++ lit "," ++ members l'
                end
            end) props
      ++ lit "}"
  end.

(** ToBoolean *)
Definition truthy (v : value) : bool :=
  match v with
  | None => false
  | Some JNull => false
  | Some (JBool b) => b
  | Some (JNum n) => negb (JsString.eqb n (lit "0"))
  | Some (JStr s) => match s with [] => false | _ :: _ => true end
  | Some (JArr _) => true
  | Some (JObj _) => true
  end.

Fixpoint lookup (k : jsstring) (props : list (jsstring * json)) : value :=
  match props with
  | [] => None
  | (k', x) :: rest => if JsString.eqb k k' then Some x else lookup k rest
  end.

End Json.
Import Json.

(* ------------------------------------------------------------------ *)
(** ** The page: globals, document, environment *)

Module Page.

(** [customImages]: each property is [null] ([None]) or a string. *)
Record CustomImages : Type := {
  userAvatar : option jsstring;
  botAvatar : option jsstring
}.

(** The argument [type] of [addMessage] and [updateAvatarPreview]. *)
Inductive kind : Type := user | bot.

Definition kindName (k : kind) : jsstring :=
  match k with user => lit "user" | bot => lit "bot" end.

(** What [getUserAvatarSVG] and [getBotAvatarSVG] return: an [img] of the
    custom image, or the drawn face ([anim] picks the colours of the
    robot). *)
Inductive avatar : Type :=
| CustomImg (src : jsstring)
| UserFace
| BotFace (anim : bool).

(** The bubble of a child of [#messagesArea]: the rendered text as it is
    written into [innerHTML] (the time label under it is read from the
    clock and left out), or the three dots of the placeholder.  The text
    is kept as text: the elements its own markup would make are not part
    of the model. *)
Inductive bubble : Type :=
| Text (html : jsstring)
| Thinking.

Record MessageDiv : Type := {
  className : jsstring;
  elemId : jsstring;
  avatarOf : avatar;
  bubbleOf : bubble
}.

(** [#userAvatarPreview] / [#botAvatarPreview] with the [has-image]
    class of its area. *)
Record Preview : Type := {
  previewImg : option jsstring;
  hasImage : bool
}.

Inductive themeIcon : Type := Sun | Moon.

(** [localStorage].  The text under [chatCustomImages] is only ever
    written by [saveSettings] as [JSON.stringify(customImages)] and read
    back with [JSON.parse]; the model keeps the object it denotes. *)
Record Storage : Type := {
  chatCustomImages : option CustomImages;
  chatTheme : option jsstring
}.

Record File : Type := { size : N }.

Inductive request : Type :=
| CreateSession                                       (* POST /sessions *)
| PostMessage (sid : value) (body : jsstring)         (* POST /sessions/${sessionId}/messages *)
| GetVisualization (sid : value).                     (* GET /sessions/${sessionId}/visualization *)

(** Calls on the world outside the script, in the order they are made:
    the network, the file reader, [alert], [localStorage.setItem] (also
    when it throws), the diagram renderer, and [appendChild] on the
    message area. *)
Inductive effect : Type :=
| Fetch (r : request)
| ReadAsDataURL (f : File)
| Alert (msg : jsstring)
| SetItemImages (c : CustomImages)
| SetItemTheme (t : jsstring)
| MermaidRun (diagram : value)
| AppendChild (d : MessageDiv).

(** The two writes of [saveSettings].  [localStorage.setItem] throws a
    [QuotaExceededError] when the browser cannot store the value (two
    avatars of under 2 MiB each already exceed the usual quota); whether
    it does is the browser's answer and comes with the event. *)
Inductive write : Type := ImagesWrite | ThemeWrite.

(** A suspended asynchronous call, named after what resumes when it
    settles.  [fetch] and the [res.json()] after it settle as one. *)
Inductive task : Type :=
| AwaitCreate      (* initSession, at [fetch('/sessions')] *)
| AwaitInitViz     (* initSession, at [await loadVisualization()] *)
| AwaitSend        (* [sendMessageToServer(text).then(...)] of onSend *)
| AwaitViz         (* [loadVisualization()] started by that callback *)
| AwaitReadUser    (* handleUserAvatarUpload, at [readFileAsDataURL] *)
| AwaitReadBot.    (* handleBotAvatarUpload, at [readFileAsDataURL] *)

Record State : Type := {
  (* globals *)
  sessionId : value;
  isDarkMode : bool;
  isLoading : bool;
  customImages : CustomImages;
  (* document *)
  bodyClass : jsstring;
  messagesArea : list MessageDiv;
  messageInput : jsstring;
  sendDisabled : bool;
  diagram : value;
  themeToggle : themeIcon;
  userAvatarPreview : Preview;
  botAvatarPreview : Preview;
  (* environment *)
  localStorage : Storage;
  effects : list effect;
  pending : list task
}.

(** The globals as declared and the document of index.html. *)
Definition initial (ls : Storage) : State := {|
  sessionId := Some JNull;
  isDarkMode := true;
  isLoading := false;
  customImages := {| userAvatar := None; botAvatar := None |};
  bodyClass := lit "dark";
  messagesArea := [];
  messageInput := [];
  sendDisabled := false;
  diagram := Some (JStr []);
  themeToggle := Sun;
  userAvatarPreview := {| previewImg := None; hasImage := false |};
  botAvatarPreview := {| previewImg := None; hasImage := false |};
  localStorage := ls;
  effects := [];
  pending := []
|}.

(** *** Field updates *)

Definition set_sessionId (v : value) (s : State) : State :=
  {| sessionId := v; isDarkMode := isDarkMode s; isLoading := isLoading s;
     customImages := customImages s; bodyClass := bodyClass s;
     messagesArea := messagesArea s; messageInput := messageInput s;
     sendDisabled := sendDisabled s; diagram := diagram s;
     themeToggle := themeToggle s; userAvatarPreview := userAvatarPreview s;
     botAvatarPreview := botAvatarPreview s; localStorage := localStorage s;
     effects := effects s; pending := pending s |}.

Definition set_isDarkMode (v : bool) (s : State) : State :=
  {| sessionId := sessionId s; isDarkMode := v; isLoading := isLoading s;
     customImages := customImages s; bodyClass := bodyClass s;
     messagesArea := messagesArea s; messageInput := messageInput s;
     sendDisabled := sendDisabled s; diagram := diagram s;
     themeToggle := themeToggle s; userAvatarPreview := userAvatarPreview s;
     botAvatarPreview := botAvatarPreview s; localStorage := localStorage s;
     effects := effects s; pending := pending s |}.

Definition set_isLoading (v : bool) (s : State) : State :=
  {| sessionId := sessionId s; isDarkMode := isDarkMode s; isLoading := v;
     customImages := customImages s; bodyClass := bodyClass s;
     messagesArea := messagesArea s; messageInput := messageInput s;
     sendDisabled := sendDisabled s; diagram := diagram s;
     themeToggle := themeToggle s; userAvatarPreview := userAvatarPreview s;
     botAvatarPreview := botAvatarPreview s; localStorage := localStorage s;
     effects := effects s; pending := pending s |}.

Definition set_customImages (v : CustomImages) (s : State) : State :=
  {| sessionId := sessionId s; isDarkMode := isDarkMode s; isLoading := isLoading s;
     customImages := v; bodyClass := bodyClass s;
     messagesArea := messagesArea s; messageInput := messageInput s;
     sendDisabled := sendDisabled s; diagram := diagram s;
     themeToggle := themeToggle s; userAvatarPreview := userAvatarPreview s;
     botAvatarPreview := botAvatarPreview s; localStorage := localStorage s;
     effects := effects s; pending := pending s |}.

Definition set_bodyClass (v : jsstring) (s : State) : State :=
  {| sessionId := sessionId s; isDarkMode := isDarkMode s; isLoading := isLoading s;
     customImages := customImages s; bodyClass := v;
     messagesArea := messagesArea s; messageInput := messageInput s;
     sendDisabled := sendDisabled s; diagram := diagram s;
     themeToggle := themeToggle s; userAvatarPreview := userAvatarPreview s;
     botAvatarPreview := botAvatarPreview s; localStorage := localStorage s;
     effects := effects s; pending := pending s |}.

Definition set_messagesArea (v : list MessageDiv) (s : State) : State :=
  {| sessionId := sessionId s; isDarkMode := isDarkMode s; isLoading := isLoading s;
     customImages := customImages s; bodyClass := bodyClass s;
     messagesArea := v; messageInput := messageInput s;
     sendDisabled := sendDisabled s; diagram := diagram s;
     themeToggle := themeToggle s; userAvatarPreview := userAvatarPreview s;
     botAvatarPreview := botAvatarPreview s; localStorage := localStorage s;
     effects := effects s; pending := pending s |}.

Definition set_messageInput (v : jsstring) (s : State) : State :=
  {| sessionId := sessionId s; isDarkMode := isDarkMode s; isLoading := isLoading s;
     customImages := customImages s; bodyClass := bodyClass s;
     messagesArea := messagesArea s; messageInput := v;
     sendDisabled := sendDisabled s; diagram := diagram s;
     themeToggle := themeToggle s; userAvatarPreview := userAvatarPreview s;
     botAvatarPreview := botAvatarPreview s; localStorage := localStorage s;
     effects := effects s; pending := pending s |}.

Definition set_sendDisabled (v : bool) (s : State) : State :=
  {| sessionId := sessionId s; isDarkMode := isDarkMode s; isLoading := isLoading s;
     customImages := customImages s; bodyClass := bodyClass s;
     messagesArea := messagesArea s; messageInput := messageInput s;
     sendDisabled := v; diagram := diagram s;
     themeToggle := themeToggle s; userAvatarPreview := userAvatarPreview s;
     botAvatarPreview := botAvatarPreview s; localStorage := localStorage s;
     effects := effects s; pending := pending s |}.

Definition set_diagram (v : value) (s : State) : State :=
  {| sessionId := sessionId s; isDarkMode := isDarkMode s; isLoading := isLoading s;
     customImages := customImages s; bodyClass := bodyClass s;
     messagesArea := messagesArea s; messageInput := messageInput s;
     sendDisabled := sendDisabled s; diagram := v;
     themeToggle := themeToggle s; userAvatarPreview := userAvatarPreview s;
     botAvatarPreview := botAvatarPreview s; localStorage := localStorage s;
     effects := effects s; pending := pending s |}.

Definition set_themeToggle (v : themeIcon) (s : State) : State :=
  {| sessionId := sessionId s; isDarkMode := isDarkMode s; isLoading := isLoading s;
     customImages := customImages s; bodyClass := bodyClass s;
     messagesArea := messagesArea s; messageInput := messageInput s;
     sendDisabled := sendDisabled s; diagram := diagram s;
     themeToggle := v; userAvatarPreview := userAvatarPreview s;
     botAvatarPreview := botAvatarPreview s; localStorage := localStorage s;
     effects := effects s; pending := pending s |}.

Definition set_userAvatarPreview (v : Preview) (s : State) : State :=
  {| sessionId := sessionId s; isDarkMode := isDarkMode s; isLoading := isLoading s;
     customImages := customImages s; bodyClass := bodyClass s;
     messagesArea := messagesArea s; messageInput := messageInput s;
     sendDisabled := sendDisabled s; diagram := diagram s;
     themeToggle := themeToggle s; userAvatarPreview := v;
     botAvatarPreview := botAvatarPreview s; localStorage := localStorage s;
     effects := effects s; pending := pending s |}.

Definition set_botAvatarPreview (v : Preview) (s : State) : State :=
  {| sessionId := sessionId s; isDarkMode := isDarkMode s; isLoading := isLoading s;
     customImages := customImages s; bodyClass := bodyClass s;
     messagesArea := messagesArea s; messageInput := messageInput s;
     sendDisabled := sendDisabled s; diagram := diagram s;
     themeToggle := themeToggle s; userAvatarPreview := userAvatarPreview s;
     botAvatarPreview := v; localStorage := localStorage s;
     effects := effects s; pending := pending s |}.

Definition set_localStorage (v : Storage) (s : State) : State :=
  {| sessionId := sessionId s; isDarkMode := isDarkMode s; isLoading := isLoading s;
     customImages := customImages s; bodyClass := bodyClass s;
     messagesArea := messagesArea s; messageInput := messageInput s;
     sendDisabled := sendDisabled s; diagram := diagram s;
     themeToggle := themeToggle s; userAvatarPreview := userAvatarPreview s;
     botAvatarPreview := botAvatarPreview s; localStorage := v;
     effects := effects s; pending := pending s |}.

Definition set_effects (v : list effect) (s : State) : State :=
  {| sessionId := sessionId s; isDarkMode := isDarkMode s; isLoading := isLoading s;
     customImages := customImages s; bodyClass := bodyClass s;
     messagesArea := messagesArea s; messageInput := messageInput s;
     sendDisabled := sendDisabled s; diagram := diagram s;
     themeToggle := themeToggle s; userAvatarPreview := userAvatarPreview s;
     botAvatarPreview := botAvatarPreview s; localStorage := localStorage s;
     effects := v; pending := pending s |}.

Definition set_pending (v : list task) (s : State) : State :=
  {| sessionId := sessionId s; isDarkMode := isDarkMode s; isLoading := isLoading s;
     customImages := customImages s; bodyClass := bodyClass s;
     messagesArea := messagesArea s; messageInput := messageInput s;
     sendDisabled := sendDisabled s; diagram := diagram s;
     themeToggle := themeToggle s; userAvatarPreview := userAvatarPreview s;
     botAvatarPreview := botAvatarPreview s; localStorage := localStorage s;
     effects := effects s; pending := v |}.

(** *** Running a handler

    A handler threads the page state and may stop at an uncaught
    [TypeError]; what it changed before that stays changed. *)

Inductive outcome (A : Type) : Type :=
| Normal (a : A)
| Throw.
Arguments Throw {A}.

Definition js (A : Type) : Type := State -> outcome A * State.

Definition ret {A} (a : A) : js A := fun s => (Normal a, s).

Definition bind {A B} (c : js A) (k : A -> js B) : js B := fun s =>
  match c s with
  | (Normal a, s') => k a s'
  | (Throw, s') => (Throw, s')
  end.

Definition throw {A} : js A := fun s => (Throw, s).

Definition gets {A} (f : State -> A) : js A := fun s => (Normal (f s), s).

Definition modify (f : State -> State) : js unit := fun s => (Normal tt, f s).

Definition exec (c : js unit) (s : State) : State := snd (c s).

Declare Scope js_scope.
Delimit Scope js_scope with js.
Notation "x <- c ;; k" := (bind c (fun x => k))
  (at level 61, c at next level, right associativity) : js_scope.
Notation "c ;; k" := (bind c (fun _ => k))
  (at level 61, right associativity) : js_scope.
Local Open Scope js_scope.

Definition lift {A} (o : outcome A) : js A := fun s => (o, s).

(** [v.name], for a property name that no built-in prototype defines
    ([result], [response], [message], [session_id], [diagram]): the own
    property of an object, [undefined] on any other value, a [TypeError]
    on [null] and [undefined]. *)
Definition prop (v : value) (name : jsstring) : outcome value :=
  match v with
  | None => Throw
  | Some JNull => Throw
  | Some (JObj props) => Normal (lookup name props)
  | Some _ => Normal None
  end.

Definition getProp (v : value) (name : jsstring) : js value :=
  lift (prop v name).

Definition call (e : effect) : js unit :=
  modify (fun s => set_effects (effects s ++ [e]) s).

(** Start an asynchronous call and leave [k] waiting for it. *)
Definition suspend (k : task) : js unit :=
  modify (fun s => set_pending (pending s ++ [k]) s).

Definition fetch (r : request) (k : task) : js unit :=
  call (Fetch r) ;; suspend k.

(** *** Settings *)

Definition themeName (dark : bool) : jsstring :=
  if dark then lit "dark" else lit "light".

Definition imageOf (k : kind) (c : CustomImages) : option jsstring :=
  match k with user => userAvatar c | bot => botAvatar c end.

(** Truthiness of [null] or a string. *)
Definition present (img : option jsstring) : bool :=
  match img with
  | Some (_ :: _) => true
  | _ => false
  end.

(** What the preview shows for the stored image [img]. *)
Definition previewOf (img : option jsstring) : Preview :=
  if present img then {| previewImg := img; hasImage := true |}
  else {| previewImg := None; hasImage := false |}.

Definition updateAvatarPreview (k : kind) : js unit :=
  img <- gets (fun s => imageOf k (customImages s)) ;;
  match k with
  | user => modify (set_userAvatarPreview (previewOf img))
  | bot => modify (set_botAvatarPreview (previewOf img))
  end.

(** [theme === 'dark'] *)
Definition isDark (theme : option jsstring) : bool :=
  match theme with
  | Some t => JsString.eqb t (lit "dark")
  | None => false
  end.

Definition loadSettings : js unit :=
  imgs <- gets (fun s => chatCustomImages (localStorage s)) ;;
  match imgs with
  | Some c => modify (set_customImages c)
  | None => ret tt
  end ;;
  theme <- gets (fun s => chatTheme (localStorage s)) ;;
  (if present theme then
     modify (set_isDarkMode (isDark theme)) ;;
     modify (set_bodyClass (themeName (isDark theme)))
   else ret tt) ;;
  updateAvatarPreview user ;;
  updateAvatarPreview bot.

(** Does the browser refuse the write [w], when [refused] is the write it
    refuses (if any)? *)
Definition refuses (refused : option write) (w : write) : bool :=
  match refused, w with
  | Some ImagesWrite, ImagesWrite => true
  | Some ThemeWrite, ThemeWrite => true
  | _, _ => false
  end.

(** [localStorage.setItem('chatCustomImages', JSON.stringify(c))] *)
Definition setItemImages (refused : option write) (c : CustomImages) : js unit :=
  call (SetItemImages c) ;;
  if refuses refused ImagesWrite then throw
  else modify (fun s => set_localStorage
         {| chatCustomImages := Some c; chatTheme := chatTheme (localStorage s) |} s).

(** [localStorage.setItem('chatTheme', t)] *)
Definition setItemTheme (refused : option write) (t : jsstring) : js unit :=
  call (SetItemTheme t) ;;
  if refuses refused ThemeWrite then throw
  else modify (fun s => set_localStorage
         {| chatCustomImages := chatCustomImages (localStorage s);
            chatTheme := Some t |} s).

Definition saveSettings (refused : option write) : js unit :=
  c <- gets customImages ;;
  setItemImages refused c ;;
  dark <- gets isDarkMode ;;
  setItemTheme refused (themeName dark).

Definition toggleTheme (refused : option write) : js unit :=
  modify (fun s => set_isDarkMode (negb (isDarkMode s)) s) ;;
  modify (fun s => set_bodyClass (themeName (isDarkMode s)) s) ;;
  saveSettings refused ;;
  modify (fun s => set_themeToggle (if isDarkMode s then Sun else Moon) s).

(** *** Messages *)

(** The custom image when there is one, else the drawn face. *)
Definition customOr (img : option jsstring) (face : avatar) : avatar :=
  match img with
  | Some (c :: t) => CustomImg (c :: t)
  | _ => face
  end.

Definition getUserAvatarSVG : js avatar :=
  img <- gets (fun s => userAvatar (customImages s)) ;;
  ret (customOr img UserFace).

Definition getBotAvatarSVG (anim : bool) : js avatar :=
  img <- gets (fun s => botAvatar (customImages s)) ;;
  ret (customOr img (BotFace anim)).

(** [renderMarkdown(text)] on any value: [text.replace] is a function
    only when [text] is a string. *)
Definition renderMarkdownOf (text : value) : outcome jsstring :=
  match text with
  | Some (JStr t) => Normal (renderMarkdown t)
  | _ => Throw
  end.

(** [messagesArea.appendChild(div)] *)
Definition appendChild (d : MessageDiv) : js unit :=
  call (AppendChild d) ;;
  modify (fun s => set_messagesArea (messagesArea s ++ [d]) s).

Definition addMessage (content : value) (type : kind) : js unit :=
  a <- match type with
       | user => getUserAvatarSVG
       | bot => getBotAvatarSVG false
       end ;;
  html <- lift (renderMarkdownOf content) ;;
  appendChild {| className := lit "message " ++ kindName type; elemId := [];
                 avatarOf := a; bubbleOf := Text html |}.

Definition greeting : jsstring :=
  [55357; 56395]%N ++ lit " Hello! Ask me anything.".

Definition addInitialMessage : js unit :=
  addMessage (Some (JStr greeting)) bot.

Definition loadingMessage : jsstring := lit "loadingMessage".

Definition startLoading : js unit :=
  modify (set_isLoading true) ;;
  a <- getBotAvatarSVG true ;;
  appendChild {| className := lit "message bot"; elemId := loadingMessage;
                 avatarOf := a; bubbleOf := Thinking |} ;;
  modify (set_sendDisabled true).

(** [document.getElementById(id)] followed by [remove()], for an id that
    index.html does not use: the first child of the message area with
    that id goes.  This is the element the page finds as long as no
    message text has made an element with an id. *)
Fixpoint removeById (id : jsstring) (l : list MessageDiv) : list MessageDiv :=
  match l with
  | [] => []
  | d :: rest => if JsString.eqb (elemId d) id then rest else d :: removeById id rest
  end.

Definition stopLoading : js unit :=
  modify (set_isLoading false) ;;
  modify (fun s => set_messagesArea (removeById loadingMessage (messagesArea s)) s) ;;
  modify (set_sendDisabled false).

(** *** Network *)

Definition loadVisualization (k : task) : js unit :=
  sid <- gets sessionId ;;
  fetch (GetVisualization sid) k.

Definition loadVisualization_resume (data : json) : js unit :=
  d <- getProp (Some data) (lit "diagram") ;;
  modify (set_diagram d) ;;
  call (MermaidRun d).

Definition sendMessageToServer (text : jsstring) (k : task) : js unit :=
  sid <- gets sessionId ;;
  fetch (PostMessage sid (JSON_stringify (JObj [(lit "message", JStr text)]))) k.

Definition initSession : js unit :=
  fetch CreateSession AwaitCreate.

Definition initSession_resume (data : json) : js unit :=
  sid <- getProp (Some data) (lit "session_id") ;;
  modify (set_sessionId sid) ;;
  loadVisualization AwaitInitViz.

Definition initSession_finish (data : json) : js unit :=
  loadVisualization_resume data ;;
  addInitialMessage.

Definition onSend : js unit :=
  v <- gets messageInput ;;
  let text := trim v in
  loading <- gets isLoading ;;
  if negb (present (Some text)) || loading then ret tt
  else
    addMessage (Some (JStr text)) user ;;
    modify (set_messageInput []) ;;
    startLoading ;;
    sendMessageToServer text AwaitSend.

(** The callback given to [then] in [onSend]. *)
Definition onSend_then (resp : json) : js unit :=
  stopLoading ;;
  result <- getProp (Some resp) (lit "result") ;;
  test <- (if truthy result then getProp result (lit "response") else ret result) ;;
  (if truthy test then
     response <- getProp result (lit "response") ;;
     message <- getProp response (lit "message") ;;
     addMessage message bot
   else addMessage (Some (JStr (JSON_stringify resp))) bot) ;;
  loadVisualization AwaitViz.

(** *** Avatars *)

Definition maxAvatarSize : N := 2 * 1024 * 1024.

Definition handleUserAvatarUpload (files : list File) : js unit :=
  match files with
  | [] => ret tt
  | file :: _ =>
      if N.ltb maxAvatarSize (size file) then call (Alert (lit "File too big"))
      else call (ReadAsDataURL file) ;; suspend AwaitReadUser
  end.

Definition handleBotAvatarUpload (files : list File) : js unit :=
  match files with
  | [] => ret tt
  | file :: _ =>
      if N.ltb maxAvatarSize (size file) then call (Alert (lit "File too big"))
      else call (ReadAsDataURL file) ;; suspend AwaitReadBot
  end.

Definition handleUserAvatarUpload_resume (refused : option write)
           (dataURL : jsstring) : js unit :=
  modify (fun s => set_customImages
    {| userAvatar := Some dataURL; botAvatar := botAvatar (customImages s) |} s) ;;
  updateAvatarPreview user ;;
  saveSettings refused.

Definition handleBotAvatarUpload_resume (refused : option write)
           (dataURL : jsstring) : js unit :=
  modify (fun s => set_customImages
    {| userAvatar := userAvatar (customImages s); botAvatar := Some dataURL |} s) ;;
  updateAvatarPreview bot ;;
  saveSettings refused.

Definition resetUserAvatar (refused : option write) : js unit :=
  modify (fun s => set_customImages
    {| userAvatar := None; botAvatar := botAvatar (customImages s) |} s) ;;
  updateAvatarPreview user ;;
  saveSettings refused.

Definition resetBotAvatar (refused : option write) : js unit :=
  modify (fun s => set_customImages
    {| userAvatar := userAvatar (customImages s); botAvatar := None |} s) ;;
  updateAvatarPreview bot ;;
  saveSettings refused.

(** *** The event loop *)

(** What makes the page save its settings. *)
Inductive saving : Type :=
| Toggling                                  (* click on #themeToggle *)
| ResettingUser
| ResettingBot
| Loading (i : nat) (dataURL : jsstring).   (* the file read [i] completes *)

(** [ThemeToggle], [ResetUserAvatar], [ResetBotAvatar] and [FileLoaded]
    are these happenings with a store that takes both writes;
    [StoreRefuses w e] is the happening [e] with a store that throws at
    the write [w]. *)
Inductive event : Type :=
| Input (v : jsstring)                      (* the user edits #message-input *)
| Send                                      (* click on #sendButton, or Enter *)
| ThemeToggle
| UserAvatarChange (files : list File)
| BotAvatarChange (files : list File)
| ResetUserAvatar
| ResetBotAvatar
| FetchResolved (i : nat) (data : json)     (* pending call [i] yields [data] *)
| FetchRejected (i : nat)
| FileLoaded (i : nat) (dataURL : jsstring)
| FileFailed (i : nat)
| StoreRefuses (w : write) (e : saving).

Definition removeAt {A} (i : nat) (l : list A) : list A :=
  firstn i l ++ skipn (S i) l.

Definition isFetchTask (t : task) : bool :=
  match t with
  | AwaitCreate | AwaitInitViz | AwaitSend | AwaitViz => true
  | AwaitReadUser | AwaitReadBot => false
  end.

Definition resumeFetch (t : task) (data : json) : js unit :=
  match t with
  | AwaitCreate => initSession_resume data
  | AwaitInitViz => initSession_finish data
  | AwaitSend => onSend_then data
  | AwaitViz => loadVisualization_resume data
  | AwaitReadUser | AwaitReadBot => ret tt
  end.

Definition resumeRead (refused : option write) (t : task) (dataURL : jsstring)
  : js unit :=
  match t with
  | AwaitReadUser => handleUserAvatarUpload_resume refused dataURL
  | AwaitReadBot => handleBotAvatarUpload_resume refused dataURL
  | _ => ret tt
  end.

(** The pending call [i] settles: it leaves the list and, when it
    resolved, its continuation runs.  A rejection runs nothing: no
    handler of the script catches one. *)
Definition settle (fetching : bool) (i : nat) (k : task -> js unit) (s : State) : State :=
  match nth_error (pending s) i with
  | Some t =>
      if Bool.eqb (isFetchTask t) fetching
      then exec (k t) (set_pending (removeAt i (pending s)) s)
      else s
  | None => s
  end.

(** The page saves its settings, the store refusing [refused] (if any). *)
Definition save (refused : option write) (e : saving) (s : State) : State :=
  match e with
  | Toggling => exec (toggleTheme refused) s
  | ResettingUser => exec (resetUserAvatar refused) s
  | ResettingBot => exec (resetBotAvatar refused) s
  | Loading i dataURL => settle false i (fun t => resumeRead refused t dataURL) s
  end.

Definition step (s : State) (e : event) : State :=
  match e with
  | Input v => set_messageInput v s
  | Send => exec onSend s
  | ThemeToggle => save None Toggling s
  | UserAvatarChange files => exec (handleUserAvatarUpload files) s
  | BotAvatarChange files => exec (handleBotAvatarUpload files) s
  | ResetUserAvatar => save None ResettingUser s
  | ResetBotAvatar => save None ResettingBot s
  | FetchResolved i data => settle true i (fun t => resumeFetch t data) s
  | FetchRejected i => settle true i (fun _ => ret tt) s
  | FileLoaded i dataURL => save None (Loading i dataURL) s
  | FileFailed i => settle false i (fun _ => ret tt) s
  | StoreRefuses w e => save (Some w) e s
  end.

Definition run (s : State) (es : list event) : State := fold_left step es s.

(** The [DOMContentLoaded] listener, on the page as loaded. *)
Definition boot (ls : Storage) : State :=
  exec (loadSettings ;; initSession) (initial ls).

(** Calls of [sendMessageToServer] that have not settled. *)
Definition isSend (t : task) : bool :=
  match t with AwaitSend => true | _ => false end.

Definition inFlight (s : State) : nat :=
  List.length (filter isSend (pending s)).

End Page.
Import Page.


(* ------------------------------------------------------------------ *)
(** * Vocabulary of the properties *)

(** ** Invariants of the page *)

Definition hasPlaceholder (l : list MessageDiv) : bool :=
  existsb (fun d => JsString.eqb (elemId d) loadingMessage) l.

(** Whenever a send is in flight the page is loading, and while it is
    loading the button is disabled and the placeholder is shown. *)
Definition sending_inv (s : State) : Prop :=
  inFlight s <= (if isLoading s then 1 else 0)
  /\ (isLoading s = true ->
      sendDisabled s = true /\ hasPlaceholder (messagesArea s) = true).

(** After a send has failed nothing clears the flag again. *)
Definition stuck (s : State) : Prop :=
  isLoading s = true /\ inFlight s = 0.

(** The theme [loadSettings] reads from the store: the stored flag
    compared with ['dark'], and the declared default, dark, when no flag
    (or an empty one) is stored. *)
Definition storedTheme (ls : Storage) : bool :=
  if present (chatTheme ls) then isDark (chatTheme ls) else true.

(** The theme the page shows is the one a reload would read. *)
Definition theme_read (s : State) : Prop :=
  isDarkMode s = storedTheme (localStorage s).

(** The key holds the name of the theme the page shows. *)
Definition theme_sync (s : State) : Prop :=
  chatTheme (localStorage s) = Some (themeName (isDarkMode s)).

Definition isCreate (e : effect) : bool :=
  match e with Fetch CreateSession => true | _ => false end.

Definition isVisualization (e : effect) : bool :=
  match e with Fetch (GetVisualization _) => true | _ => false end.

Definition isAwaitCreate (t : task) : bool :=
  match t with AwaitCreate => true | _ => false end.

(** The creation call is the first call of the page and the only one of
    its kind; it is pending at most once, and until it resolves the
    session id is [null]. *)
Definition creation_inv (s : State) : Prop :=
  (exists rest, effects s = Fetch CreateSession :: rest
                /\ filter isCreate rest = [])
  /\ List.length (filter isAwaitCreate (pending s)) <= 1
  /\ (In AwaitCreate (pending s) -> sessionId s = Some JNull).

(** ** Replies and messages *)

(** The field of [v] at the end of [path], [undefined] when a step of the
    path is missing or crosses a value that is not an object. *)
Fixpoint fieldAt (path : list jsstring) (v : value) : value :=
  match path with
  | [] => v
  | name :: rest =>
      match v with
      | Some (JObj props) => fieldAt rest (lookup name props)
      | _ => None
      end
  end.

Definition responsePath : list jsstring := [lit "result"; lit "response"].
Definition messagePath : list jsstring := responsePath ++ [lit "message"].

(** The values JavaScript takes for false, among those a reply can hold:
    [undefined], [null], [false], zero and the empty string. *)
Definition isFalsy (v : value) : bool :=
  match v with
  | None => true
  | Some JNull => true
  | Some (JBool b) => negb b
  | Some (JNum numeral) => JsString.eqb numeral (lit "0")
  | Some (JStr text) => match text with [] => true | _ :: _ => false end
  | Some (JArr _) => false
  | Some (JObj _) => false
  end.

(** The element [addMessage(content, 'bot')] appends, [html] being the
    rendered content. *)
Definition botDiv (s : State) (html : jsstring) : MessageDiv :=
  {| className := lit "message bot"; elemId := [];
     avatarOf := customOr (botAvatar (customImages s)) (BotFace false);
     bubbleOf := Text html |}.

(** Does the bubble of [d] show the text [html]? *)
Definition showsText (html : jsstring) (d : MessageDiv) : bool :=
  match bubbleOf d with
  | Text h => JsString.eqb h html
  | Thinking => false
  end.

(** The greeting as [addInitialMessage] shows it: a waving hand and the
    words. *)
Definition greetingDiv (s : State) : MessageDiv :=
  botDiv s ([55357; 56395]%N ++ lit " Hello! Ask me anything.").

(** The opening tag of inline code, with its style. *)
Definition codeOpen : jsstring :=
  lit "<code style=" ++ dquote
  ++ lit "background-color: rgba(156,163,175,0.2); padding: 0.125rem 0.25rem; border-radius: 0.25rem; font-size: 0.875rem;"
  ++ dquote ++ lit ">".


(** A code unit that none of the four patterns looks at. *)
Definition plain (c : N) : bool :=
  negb (N.eqb c star || N.eqb c backtick || N.eqb c newline).

(** ** The interface while sending *)

Definition isPlaceholder (d : MessageDiv) : bool :=
  JsString.eqb (elemId d) loadingMessage.

(** The number of placeholders in the message area. *)
Definition placeholders (l : list MessageDiv) : nat :=
  List.length (filter isPlaceholder l).

(** The messages of the conversation: what the area holds apart from the
    placeholder. *)
Definition history (l : list MessageDiv) : list MessageDiv :=
  filter (fun d => negb (isPlaceholder d)) l.

(** The button is disabled exactly while loading, and one placeholder is
    shown exactly then. *)
Definition ui_inv (s : State) : Prop :=
  sendDisabled s = isLoading s
  /\ placeholders (messagesArea s) = (if isLoading s then 1 else 0).

(** ** Calls on the outside *)

(** The body [sendMessageToServer] posts for [text]. *)
Definition messageBody (text : jsstring) : jsstring :=
  JSON_stringify (JObj [(lit "message", JStr text)]).

(** A message is posted with a text that is not empty and has no white
    space at either end; a file is read only when it is at most 2 MiB. *)
Definition sound_call (e : effect) : Prop :=
  match e with
  | Fetch (PostMessage _ body) =>
      exists text, body = messageBody text /\ text <> [] /\ trim text = text
  | ReadAsDataURL f => (size f <= maxAvatarSize)%N
  | _ => True
  end.

(** ** Elements of the message area *)

(** The element [addMessage(content, 'user')] appends. *)
Definition userDiv (s : State) (html : jsstring) : MessageDiv :=
  {| className := lit "message user"; elemId := [];
     avatarOf := customOr (userAvatar (customImages s)) UserFace;
     bubbleOf := Text html |}.

(** The element [startLoading] appends. *)
Definition placeholderDiv (s : State) : MessageDiv :=
  {| className := lit "message bot"; elemId := loadingMessage;
     avatarOf := customOr (botAvatar (customImages s)) (BotFace true);
     bubbleOf := Thinking |}.

(** ** Markup inside the elements

    [addMessage] and [updateAvatarPreview] write their texts into
    [innerHTML] without escaping.  A text that holds markup of its own
    makes elements of its own, and an element with an [id] answers
    [document.getElementById] in place of the element of index.html.  The
    page model keeps each bubble as its text and looks elements up among
    the ones the script and index.html made; it is exact for the pages
    whose texts make no element of their own, the [inert] ones. *)

Fixpoint startsWith (p s : jsstring) : bool :=
  match p, s with
  | [], _ => true
  | x :: p', y :: s' => N.eqb x y && startsWith p' s'
  | _ :: _, [] => false
  end.

(** The tags of a rendered text that come from [renderMarkdown]. *)
Definition renderedTags : list jsstring :=
  [lit "<strong>"; lit "</strong>"; lit "<em>"; lit "</em>";
   codeOpen; lit "</code>"; lit "<br>"].

(** Every [<] of [html] opens one of those tags. *)
Fixpoint inertHtml (html : jsstring) : bool :=
  match html with
  | [] => true
  | c :: rest =>
      (negb (N.eqb c 60) || existsb (fun tag => startsWith tag html) renderedTags)
      && inertHtml rest
  end.

(** An image source that stays inside the quotes of its [src]. *)
Definition inertSrc (src : jsstring) : bool :=
  forallb (fun c => negb (N.eqb c 34)) src.

Definition inertDiv (d : MessageDiv) : bool :=
  match bubbleOf d with
  | Text html => inertHtml html
  | Thinking => true
  end
  && match avatarOf d with
     | CustomImg src => inertSrc src
     | _ => true
     end.

Definition inertPreview (p : Preview) : bool :=
  match previewImg p with
  | Some src => inertSrc src
  | None => true
  end.

(** No text written into the page has made an element of its own. *)
Definition inert (s : State) : bool :=
  forallb inertDiv (messagesArea s)
  && inertPreview (userAvatarPreview s)
  && inertPreview (botAvatarPreview s).

(** The page is inert before, between and after the events [es]. *)
Definition inertRun (s : State) (es : list event) : bool :=
  forallb (fun n => inert (run s (firstn n es))) (seq 0 (S (List.length es))).

(** ** Settings *)

(** [customImages] as declared. *)
Definition noImages : CustomImages := {| userAvatar := None; botAvatar := None |}.

(** What [loadSettings] makes of the stored images. *)
Definition storedImages (ls : Storage) : CustomImages :=
  match chatCustomImages ls with
  | Some c => c
  | None => noImages
  end.

(** The store holds the images of the page (or nothing yet, and the page
    has none); the body class and both previews show the settings. *)
Definition settings_inv (s : State) : Prop :=
  storedImages (localStorage s) = customImages s
  /\ bodyClass s = themeName (isDarkMode s)
  /\ userAvatarPreview s = previewOf (userAvatar (customImages s))
  /\ botAvatarPreview s = previewOf (botAvatar (customImages s)).

(** The whole snapshot [saveSettings] writes for the page [s]. *)
Definition snapshot (s : State) : Storage :=
  {| chatCustomImages := Some (customImages s);
     chatTheme := Some (themeName (isDarkMode s)) |}.

(** The store takes the writes of this event. *)
Definition accepted (e : event) : bool :=
  match e with StoreRefuses _ _ => false | _ => true end.

(** The event flips the theme. *)
Definition isThemeToggle (e : event) : bool :=
  match e with
  | ThemeToggle => true
  | StoreRefuses _ Toggling => true
  | _ => false
  end.

(** ** Marked-up text *)

(** A code unit that can stand between two markers on one line: none of
    the markers, no line terminator. *)
Definition inline (c : N) : bool := plain c && negb (isLineTerminator c).

Definition notStar (c : N) : bool := negb (N.eqb c star).
Definition notBacktick (c : N) : bool := negb (N.eqb c backtick).
Definition notNewline (c : N) : bool := negb (N.eqb c newline).

(** How often the code unit [c] occurs in [s]. *)
Definition occurrences (c : N) (s : jsstring) : nat :=
  List.length (filter (N.eqb c) s).

(** ** Sample inputs *)

Definition fresh : Storage := {| chatCustomImages := None; chatTheme := None |}.

Definition lightStore : Storage :=
  {| chatCustomImages := None; chatTheme := Some (lit "light") |}.

Definition hi : jsstring := lit "hi".

Definition sessionReply : json := JObj [(lit "session_id", JStr (lit "s1"))].

Definition diagramReply : json := JObj [(lit "diagram", JStr (lit "graph TD"))].

Definition emptyReply : json := JObj [].

Definition hiReply : json :=
  JObj [(lit "result", JObj [(lit "response", JObj [(lit "message", JStr (lit "Hi"))])])].

Definition fooReply : json := JObj [(lit "foo", JNum (lit "1"))].

(** A reply whose [result.response] is zero. *)
Definition halfReply : json :=
  JObj [(lit "result", JObj [(lit "response", JNum (lit "0"));
                             (lit "score", JNum (lit "0.5"))])].

Definition noMessageReply : json :=
  JObj [(lit "result", JObj [(lit "response", JObj [])])].

(** The page after the user typed [hi] and pressed Enter, the session
    creation still pending. *)
Definition sendingPage : State := run (boot fresh) [Input hi; Send].

(** The same, and the reply to the message arrives before the session
    does. *)
Definition earlyTurn : State :=
  run (boot fresh) [Input hi; Send; FetchResolved 1 emptyReply].

(** The input holds two spaces, a tab, a line feed and an ideographic
    space. *)
Definition blankPage : State :=
  run (boot fresh) [Input (lit "  " ++ [9; 10; 12288]%N)].

(** The page once the session exists and its diagram fetch is pending. *)
Definition sessionPage : State := step (boot fresh) (FetchResolved 0 sessionReply).

(** A running session, the user's [hi] sent and not yet answered. *)
Definition sentPage : State :=
  run (boot fresh)
    [FetchResolved 0 sessionReply; FetchResolved 0 diagramReply; Input hi; Send].

(** Two turns answered, both diagram fetches still pending. *)
Definition twoFetches : State :=
  run sentPage [FetchResolved 0 fooReply; Input hi; Send; FetchResolved 1 fooReply].

Definition pngURL : jsstring := lit "data:image/png;base64,iVBORw0KGgo=".

Definition bigFile : File := {| size := 2 * 1024 * 1024 + 1 |}.

Definition smallFile : File := {| size := 2 * 1024 * 1024 |}.

(** The user picked [smallFile] as avatar; the read is under way. *)
Definition readingPage : State := run (boot fresh) [UserAvatarChange [smallFile]].

(** The user uploads an avatar, switches to the light theme, and sends
    [hi]. *)
Definition uploadAndToggle : list event :=
  [UserAvatarChange [smallFile]; FileLoaded 1 pngURL; ThemeToggle; Input hi; Send].


(* ------------------------------------------------------------------ *)
(** * Properties *)

(** ** Proof automation *)

Arguments renderMarkdown : simpl never.
Arguments JSON_stringify : simpl never.
Arguments trim : simpl never.
Arguments lit : simpl never.
Arguments present : simpl never.
Arguments customOr : simpl never.
Arguments previewOf : simpl never.
Arguments themeName : simpl never.
Arguments isDark : simpl never.
Arguments truthy : simpl never.
Arguments lookup : simpl never.
Arguments removeAt : simpl never.
Arguments removeById : simpl never.
Arguments hasPlaceholder : simpl never.
Arguments prop : simpl nomatch.
Arguments renderMarkdownOf : simpl nomatch.

(** Unfold a handler down to the state it returns. *)
Ltac handler :=
  cbv [step save settle exec run boot refuses setItemImages setItemTheme
       onSend onSend_then toggleTheme saveSettings loadSettings updateAvatarPreview
       handleUserAvatarUpload handleBotAvatarUpload
       handleUserAvatarUpload_resume handleBotAvatarUpload_resume
       resetUserAvatar resetBotAvatar resumeFetch resumeRead
       initSession initSession_resume initSession_finish
       loadVisualization loadVisualization_resume sendMessageToServer
       addMessage addInitialMessage getUserAvatarSVG getBotAvatarSVG lift
       appendChild startLoading stopLoading fetch call suspend getProp
       bind ret throw gets modify].

(** Split on what a handler branches on: a property read, the rendering
    of a value, a truthiness test. *)
Ltac split_cases :=
  repeat (match goal with
          | |- context [prop ?v ?n] => destruct (prop v n) eqn:?
          | |- context [renderMarkdownOf ?v] => destruct (renderMarkdownOf v) eqn:?
          | |- context [truthy ?v] => destruct (truthy v) eqn:?
          end; cbn in *).

(** ** Traces *)

Lemma run_app (s : State) (es es' : list event) :
  run s (es ++ es') = run (run s es) es'.
Proof. apply fold_left_app. Qed.

Lemma run_invariant (I : State -> Prop) :
  (forall s e, I s -> I (step s e)) ->
  forall es s, I s -> I (run s es).
Proof.
  intros Hstep es. induction es as [|e es IH]; intros s Hs.
  - exact Hs.
  - cbn. apply IH, Hstep, Hs.
Qed.

(** ** Pending calls *)

Lemma removeAt_cons {A} (x : A) (l : list A) (i : nat) :
  removeAt (S i) (x :: l) = x :: removeAt i l.
Proof. reflexivity. Qed.

Lemma filter_removeAt (f : task -> bool) (l : list task) :
  forall i t, nth_error l i = Some t ->
  List.length (filter f (removeAt i l)) + (if f t then 1 else 0)
  = List.length (filter f l).
Proof.
  induction l as [|x l IH]; intros [|i] t H; try discriminate.
  - injection H as ->. unfold removeAt. cbn. destruct (f t); cbn; lia.
  - rewrite removeAt_cons. cbn in H. specialize (IH i t H).
    cbn. destruct (f x); cbn; lia.
Qed.

Lemma In_removeAt {A} (x : A) (i : nat) :
  forall l, In x (removeAt i l) -> In x l.
Proof.
  induction i as [|i IH]; intros [|y l] H; try exact H.
  - right. exact H.
  - rewrite removeAt_cons in H. destruct H as [H|H]; [now left | right; auto].
Qed.

Lemma filter_app_length (f : task -> bool) (l : list task) (t : task) :
  List.length (filter f (l ++ [t]))
  = List.length (filter f l) + (if f t then 1 else 0).
Proof.
  rewrite filter_app, length_app. cbn. destruct (f t); reflexivity.
Qed.

(** ** The sending flag *)

Lemma hasPlaceholder_app (l l' : list MessageDiv) :
  hasPlaceholder (l ++ l') = hasPlaceholder l || hasPlaceholder l'.
Proof. apply existsb_app. Qed.

Lemma eqb_refl (a : jsstring) : JsString.eqb a a = true.
Proof.
  induction a as [|x a IH]; cbn; [reflexivity|].
  now rewrite N.eqb_refl, IH.
Qed.

Lemma hasPlaceholder_startLoading (l : list MessageDiv) (a : avatar) (c : jsstring) :
  hasPlaceholder (l ++ [{| className := c; elemId := loadingMessage;
                           avatarOf := a; bubbleOf := Thinking |}]) = true.
Proof.
  rewrite hasPlaceholder_app. unfold hasPlaceholder at 2. cbn.
  now rewrite eqb_refl, orb_true_r.
Qed.

Lemma sending_inv_step (s : State) (e : event) :
  sending_inv s -> sending_inv (step s e).
Proof.
  unfold sending_inv, inFlight. intros [H1 H2]. destruct e.
  - (* Input *) handler. cbn. auto.
  - (* Send *) handler. cbn.
    destruct (negb (present (Some (trim (messageInput s)))) || isLoading s) eqn:G; cbn.
    + auto.
    + apply orb_false_elim in G as [_ G]. rewrite G in H1. cbn in H1.
      rewrite filter_app_length. cbn. split; [lia|]. intros _. split; [reflexivity|].
      apply hasPlaceholder_startLoading.
  - (* ThemeToggle *) handler. cbn. auto.
  - (* UserAvatarChange *) handler. destruct files as [|f files]; cbn; auto.
    destruct (N.ltb _ (size f)); cbn; auto.
    rewrite filter_app_length. cbn. rewrite Nat.add_0_r. auto.
  - (* BotAvatarChange *) handler. destruct files as [|f files]; cbn; auto.
    destruct (N.ltb _ (size f)); cbn; auto.
    rewrite filter_app_length. cbn. rewrite Nat.add_0_r. auto.
  - (* ResetUserAvatar *) handler. cbn. auto.
  - (* ResetBotAvatar *) handler. cbn. auto.
  - (* FetchResolved *) handler.
    destruct (nth_error (pending s) i) as [t|] eqn:Hi; [|auto].
    pose proof (filter_removeAt isSend _ _ Hi) as Hrm.
    destruct t; cbn in *; split_cases;
      destruct (isLoading s) eqn:Hl; cbn in *;
      (split;
       [ rewrite ?filter_app_length; cbn; lia
       | intros Hl';
         (discriminate
          || (destruct (H2 Hl') as [Hd Hp]; split; [assumption|];
              rewrite ?hasPlaceholder_app, ?Hp; reflexivity)) ]).
  - (* FetchRejected *) handler.
    destruct (nth_error (pending s) i) as [t|] eqn:Hi; [|auto].
    pose proof (filter_removeAt isSend _ _ Hi) as Hrm.
    destruct t; cbn in *; auto; (split; [lia|assumption]).
  - (* FileLoaded *) handler.
    destruct (nth_error (pending s) i) as [t|] eqn:Hi; [|auto].
    pose proof (filter_removeAt isSend _ _ Hi) as Hrm.
    destruct t; cbn in *; auto; (split; [lia|assumption]).
  - (* FileFailed *) handler.
    destruct (nth_error (pending s) i) as [t|] eqn:Hi; [|auto].
    pose proof (filter_removeAt isSend _ _ Hi) as Hrm.
    destruct t; cbn in *; auto; (split; [lia|assumption]).
  - (* StoreRefuses *) destruct e as [| | |i url], w; handler; cbn; auto;
      (destruct (nth_error (pending s) i) as [t|] eqn:Hi; [|auto]);
      pose proof (filter_removeAt isSend _ _ Hi) as Hrm;
      destruct t; cbn in *; auto; (split; [lia|assumption]).
Qed.

Lemma sending_inv_boot (ls : Storage) : sending_inv (boot ls).
Proof.
  unfold sending_inv, inFlight. handler.
  destruct ls as [[c|] theme]; cbn; destruct (present theme); cbn;
    (split; [lia | discriminate]).
Qed.

Lemma sending_inv_reachable (ls : Storage) (es : list event) :
  sending_inv (run (boot ls) es).
Proof. apply run_invariant; [apply sending_inv_step | apply sending_inv_boot]. Qed.

Lemma stuck_step (s : State) (e : event) : stuck s -> stuck (step s e).
Proof.
  unfold stuck, inFlight. intros [Hl H0]. destruct e.
  - handler. cbn. auto.
  - handler. cbn. rewrite Hl, orb_true_r. cbn. auto.
  - handler. cbn. auto.
  - handler. destruct files as [|f files]; cbn; auto.
    destruct (N.ltb _ (size f)); cbn; auto.
    rewrite filter_app_length. cbn. split; [assumption | lia].
  - handler. destruct files as [|f files]; cbn; auto.
    destruct (N.ltb _ (size f)); cbn; auto.
    rewrite filter_app_length. cbn. split; [assumption | lia].
  - handler. cbn. auto.
  - handler. cbn. auto.
  - handler.
    destruct (nth_error (pending s) i) as [t|] eqn:Hi; [|auto].
    pose proof (filter_removeAt isSend _ _ Hi) as Hrm.
    destruct t; cbn in *; split_cases;
      rewrite ?filter_app_length; cbn; (split; [assumption || lia | lia]).
  - handler.
    destruct (nth_error (pending s) i) as [t|] eqn:Hi; [|auto].
    pose proof (filter_removeAt isSend _ _ Hi) as Hrm.
    destruct t; cbn in *; auto; (split; [assumption | lia]).
  - handler.
    destruct (nth_error (pending s) i) as [t|] eqn:Hi; [|auto].
    pose proof (filter_removeAt isSend _ _ Hi) as Hrm.
    destruct t; cbn in *; split_cases; auto; (split; [assumption | lia]).
  - handler.
    destruct (nth_error (pending s) i) as [t|] eqn:Hi; [|auto].
    pose proof (filter_removeAt isSend _ _ Hi) as Hrm.
    destruct t; cbn in *; auto; (split; [assumption | lia]).
  - destruct e as [| | |i url], w; handler; cbn; auto;
      (destruct (nth_error (pending s) i) as [t|] eqn:Hi; [|auto]);
      pose proof (filter_removeAt isSend _ _ Hi) as Hrm;
      destruct t; cbn in *; auto; (split; [assumption | lia]).
Qed.

Lemma stuck_run (es : list event) (s : State) : stuck s -> stuck (run s es).
Proof. apply run_invariant. apply stuck_step. Qed.

(** ** Blank input *)

Lemma trimStart_nil_iff (v : jsstring) :
  trimStart v = [] <-> forallb isTrimmed v = true.
Proof.
  induction v as [|c v IH]; cbn; [tauto|].
  destruct (isTrimmed c); cbn; [exact IH|].
  split; discriminate.
Qed.

Lemma trimStart_suffix (v : jsstring) :
  trimStart v = [] \/ exists c t, trimStart v = c :: t /\ isTrimmed c = false.
Proof.
  induction v as [|c v IH]; cbn; [now left|].
  destruct (isTrimmed c) eqn:E; [exact IH|].
  right. now exists c, v.
Qed.

(** [trim] leaves nothing exactly when every code unit is white space or a
    line terminator. *)
Lemma trim_nil_iff (v : jsstring) :
  trim v = [] <-> forallb isTrimmed v = true.
Proof.
  unfold trim, trimEnd. rewrite <- trimStart_nil_iff. split.
  - intros H. destruct (trimStart_suffix v) as [E|(c & t & E & Hc)]; [exact E|].
    rewrite E in *. apply (f_equal (@rev N)) in H. rewrite rev_involutive in H.
    change (rev []) with (@nil N) in H.
    apply trimStart_nil_iff in H. rewrite forallb_forall in H.
    assert (isTrimmed c = true) as Hc' by (apply H; rewrite <- in_rev; now left).
    congruence.
  - intros ->. reflexivity.
Qed.

(** ** Single flight *)

Lemma onSend_while_loading (s : State) :
  isLoading s = true -> step s Send = s.
Proof.
  intros H. handler. rewrite H, orb_true_r. reflexivity.
Qed.

Lemma onSend_blank (s : State) :
  trim (messageInput s) = [] -> step s Send = s.
Proof.
  intros H. handler. rewrite H. reflexivity.
Qed.

(** C1. At most one send is in flight in any state the page can reach, and
    while one is in flight ([isLoading] is then true) a further submission
    leaves the whole page state as it is: no second call, no user message,
    no change.  Once the pending send resolves the flag is cleared and no
    send is in flight. *)
Theorem single_flight (ls : Storage) (es : list event) :
  inFlight (run (boot ls) es) <= 1
  /\ (0 < inFlight (run (boot ls) es) ->
      isLoading (run (boot ls) es) = true
      /\ step (run (boot ls) es) Send = run (boot ls) es)
  /\ (forall i data,
        nth_error (pending (run (boot ls) es)) i = Some AwaitSend ->
        isLoading (step (run (boot ls) es) (FetchResolved i data)) = false
        /\ inFlight (step (run (boot ls) es) (FetchResolved i data)) = 0).
Proof.
  pose proof (sending_inv_reachable ls es) as [H1 H2].
  set (s := run (boot ls) es) in *.
  assert (Hle : inFlight s <= 1) by (destruct (isLoading s); lia).
  split; [exact Hle|]. split.
  - intros Hpos. assert (Hl : isLoading s = true).
    { destruct (isLoading s); [reflexivity | lia]. }
    split; [exact Hl | now apply onSend_while_loading].
  - intros i data Hi. unfold inFlight in *.
    pose proof (filter_removeAt isSend _ _ Hi) as Hrm.
    handler. rewrite Hi. cbn in *. split_cases;
      rewrite ?filter_app_length; cbn; (split; [reflexivity | lia]).
Qed.

Lemma single_flight_witness :
  isLoading sendingPage = true /\ step sendingPage Send = sendingPage.
Proof.
  apply (proj1 (proj2 (single_flight fresh [Input hi; Send]))).
  vm_compute. lia.
Defined.

(** C6. When the input holds nothing but white space (or nothing at all),
    a submission changes nothing in the page: no call, no message, no
    placeholder, the loading flag as it was. *)
Theorem blank_submission_is_noop (s : State) :
  forallb isTrimmed (messageInput s) = true ->
  step s Send = s.
Proof.
  intros H. apply onSend_blank, trim_nil_iff, H.
Qed.

Lemma blank_submission_witness :
  isLoading blankPage = false /\ step blankPage Send = blankPage.
Proof.
  split; [reflexivity|].
  apply (blank_submission_is_noop blankPage). vm_compute. reflexivity.
Defined.

(** C5. When the pending send rejects, only the settled call leaves the
    page state: the messages are the same, the placeholder is still there,
    the button stays disabled, [isLoading] stays true, no further call is
    issued, and whatever happens afterwards the page stays in that
    state of loading. *)
Theorem send_rejection_not_recovered (ls : Storage) (es : list event) (i : nat) :
  nth_error (pending (run (boot ls) es)) i = Some AwaitSend ->
  step (run (boot ls) es) (FetchRejected i)
  = set_pending (removeAt i (pending (run (boot ls) es))) (run (boot ls) es)
  /\ messagesArea (step (run (boot ls) es) (FetchRejected i))
     = messagesArea (run (boot ls) es)
  /\ hasPlaceholder (messagesArea (step (run (boot ls) es) (FetchRejected i))) = true
  /\ sendDisabled (step (run (boot ls) es) (FetchRejected i)) = true
  /\ isLoading (step (run (boot ls) es) (FetchRejected i)) = true
  /\ effects (step (run (boot ls) es) (FetchRejected i)) = effects (run (boot ls) es)
  /\ inFlight (step (run (boot ls) es) (FetchRejected i)) = 0
  /\ forall es',
       isLoading (run (step (run (boot ls) es) (FetchRejected i)) es') = true
       /\ inFlight (run (step (run (boot ls) es) (FetchRejected i)) es') = 0.
Proof.
  pose proof (sending_inv_reachable ls es) as [H1 H2].
  set (s := run (boot ls) es) in *. intros Hi.
  unfold inFlight in *.
  pose proof (filter_removeAt isSend _ _ Hi) as Hrm. cbn in Hrm.
  assert (Hl : isLoading s = true).
  { destruct (isLoading s); [reflexivity | lia]. }
  rewrite Hl in H1. destruct (H2 Hl) as [Hd Hp].
  assert (Hs : step s (FetchRejected i) = set_pending (removeAt i (pending s)) s).
  { handler. rewrite Hi. reflexivity. }
  rewrite Hs. cbn.
  repeat (split; [first [reflexivity | assumption | lia]|]).
  intros es'. apply (stuck_run es'). unfold stuck, inFlight. cbn. split; [assumption | lia].
Qed.

Lemma send_rejection_witness :
  isLoading (step sendingPage (FetchRejected 1)) = true.
Proof.
  destruct (send_rejection_not_recovered fresh [Input hi; Send] 1)
    as (_ & _ & _ & _ & H & _); [vm_compute; reflexivity | exact H].
Defined.

(** ** Avatars *)

(** C7. A file larger than 2 MiB makes either upload handler show the
    warning and stop: apart from the alert the page state is the same, so
    the stored avatars, the previews and [localStorage] are untouched, no
    [setItem] is called and no file read is started. *)
Theorem oversize_avatar_rejected (s : State) (file : File) (rest : list File) :
  (maxAvatarSize < size file)%N ->
  step s (UserAvatarChange (file :: rest))
  = set_effects (effects s ++ [Alert (lit "File too big")]) s
  /\ step s (BotAvatarChange (file :: rest))
     = set_effects (effects s ++ [Alert (lit "File too big")]) s.
Proof.
  intros H. apply N.ltb_lt in H. handler. rewrite H. split; reflexivity.
Qed.

Lemma oversize_avatar_witness :
  step sendingPage (UserAvatarChange [bigFile])
  = set_effects (effects sendingPage ++ [Alert (lit "File too big")]) sendingPage.
Proof.
  apply (oversize_avatar_rejected sendingPage bigFile []). reflexivity.
Defined.

(** C10. With no file selected either upload handler returns at once: the
    page state, with its avatars, previews, stored settings and the list
    of alerts shown, is what it was. *)
Theorem empty_selection_is_noop (s : State) :
  step s (UserAvatarChange []) = s /\ step s (BotAvatarChange []) = s.
Proof. split; reflexivity. Qed.

(** ** Theme *)

Lemma theme_read_step (s : State) (e : event) :
  accepted e = true -> theme_read s -> theme_read (step s e).
Proof.
  unfold theme_read, storedTheme. intros Ha H. destruct e; try discriminate Ha; handler.
  - cbn. assumption.
  - cbn. destruct (negb _ || _); cbn; assumption.
  - cbn. now destruct (isDarkMode s).
  - destruct files as [|f files]; cbn; [assumption|].
    destruct (N.ltb _ (size f)); cbn; assumption.
  - destruct files as [|f files]; cbn; [assumption|].
    destruct (N.ltb _ (size f)); cbn; assumption.
  - cbn. now destruct (isDarkMode s).
  - cbn. now destruct (isDarkMode s).
  - destruct (nth_error (pending s) i) as [t|]; [|assumption].
    destruct t; cbn; split_cases; assumption.
  - destruct (nth_error (pending s) i) as [t|]; [|assumption].
    destruct t; cbn; assumption.
  - destruct (nth_error (pending s) i) as [t|]; [|assumption].
    destruct t; cbn; first [assumption | now destruct (isDarkMode s)].
  - destruct (nth_error (pending s) i) as [t|]; [|assumption].
    destruct t; cbn; assumption.
Qed.

Lemma theme_read_boot (ls : Storage) : theme_read (boot ls).
Proof.
  unfold theme_read, storedTheme. handler.
  destruct ls as [[c|] theme]; cbn; destruct (present theme) eqn:E; cbn;
    rewrite E; reflexivity.
Qed.

Lemma theme_sync_boot (ls : Storage) (dark : bool) :
  chatTheme ls = Some (themeName dark) -> theme_sync (boot ls).
Proof.
  unfold theme_sync. intros H. handler.
  destruct ls as [[c|] theme]; cbn in *; subst theme; destruct dark; reflexivity.
Qed.

Lemma themeName_negb (dark : bool) : themeName (negb dark) <> themeName dark.
Proof. destruct dark; discriminate. Qed.

(** Two toggles, on any page state, the store taking the writes. *)
Lemma toggleTheme_twice (s : State) :
  isDarkMode (step (step s ThemeToggle) ThemeToggle) = isDarkMode s
  /\ bodyClass (step (step s ThemeToggle) ThemeToggle) = themeName (isDarkMode s)
  /\ chatTheme (localStorage (step (step s ThemeToggle) ThemeToggle))
     = Some (themeName (isDarkMode s))
  /\ chatTheme (localStorage (step s ThemeToggle))
     = Some (themeName (negb (isDarkMode s))).
Proof.
  handler. cbn. rewrite negb_involutive. repeat split.
Qed.

(** C8, as the code has it.  Whenever the key [chatTheme] holds the theme
    the page shows, two toggles (the store taking the writes) bring back
    the value under the key, which one toggle alone changes.  The key
    holds the theme shown after every such toggle and after a load from a
    stored [dark] or [light]; the theme shown is back after two toggles
    in any state.  A toggle whose write the store refuses flips the theme
    shown and leaves the key as it was. *)
Theorem toggle_twice_restores_theme (s : State) :
  (chatTheme (localStorage s) = Some (themeName (isDarkMode s)) ->
   chatTheme (localStorage (step (step s ThemeToggle) ThemeToggle))
   = chatTheme (localStorage s)
   /\ chatTheme (localStorage (step s ThemeToggle)) <> chatTheme (localStorage s))
  /\ chatTheme (localStorage (step s ThemeToggle))
     = Some (themeName (isDarkMode (step s ThemeToggle)))
  /\ isDarkMode (step (step s ThemeToggle) ThemeToggle) = isDarkMode s
  /\ (forall (ls : Storage) (dark : bool),
        chatTheme ls = Some (themeName dark) ->
        chatTheme (localStorage (boot ls)) = Some (themeName (isDarkMode (boot ls)))
        /\ isDarkMode (boot ls) = dark)
  /\ (forall w : write,
        chatTheme (localStorage (step s (StoreRefuses w Toggling)))
        = chatTheme (localStorage s)
        /\ isDarkMode (step s (StoreRefuses w Toggling)) = negb (isDarkMode s)).
Proof.
  destruct (toggleTheme_twice s) as (Hd & _ & H2 & H1).
  split; [|split; [|split; [exact Hd|split]]].
  - intros Hs. rewrite H2, H1, Hs. split; [reflexivity|].
    intros E. injection E as E. now apply themeName_negb in E.
  - rewrite H1. handler. reflexivity.
  - intros ls dark H. split; [now apply theme_sync_boot with dark|].
    handler. destruct ls as [[c|] theme]; cbn in *; subst theme;
      destruct dark; reflexivity.
  - intros w. handler. destruct w; cbn; split; reflexivity.
Qed.

Lemma toggle_twice_witness :
  chatTheme (localStorage (step (step (run (boot lightStore) [Input hi; Send]) ThemeToggle) ThemeToggle))
  = chatTheme (localStorage (run (boot lightStore) [Input hi; Send])).
Proof.
  destruct (toggle_twice_restores_theme (run (boot lightStore) [Input hi; Send]))
    as (H & _).
  apply H. reflexivity.
Defined.

(** C8, as stated, fails on a first visit: nothing is stored under the
    key before, [dark] is after two toggles. *)
Lemma toggle_twice_fresh_counterexample :
  ~ (chatTheme (localStorage (step (step (boot fresh) ThemeToggle) ThemeToggle))
     = chatTheme (localStorage (boot fresh))).
Proof. vm_compute. discriminate. Qed.

(** On a profile where no theme was ever stored the key is absent, the
    page starts dark, and two toggles leave [dark] under the key. *)
Lemma toggle_twice_fresh :
  chatTheme (localStorage (boot fresh)) = None
  /\ chatTheme (localStorage (step (step (boot fresh) ThemeToggle) ThemeToggle))
     = Some (lit "dark").
Proof. split; reflexivity. Qed.

(** ** Session creation *)

Lemma In_filter_length (f : task -> bool) (t : task) (l : list task) :
  In t l -> f t = true -> 1 <= List.length (filter f l).
Proof.
  intros Hin Hf. assert (H : In t (filter f l)) by (apply filter_In; auto).
  destruct (filter f l); [destruct H | cbn; lia].
Qed.

Lemma creation_first_extend (l added : list effect) :
  (exists rest, l = Fetch CreateSession :: rest /\ filter isCreate rest = []) ->
  filter isCreate added = [] ->
  exists rest, l ++ added = Fetch CreateSession :: rest /\ filter isCreate rest = [].
Proof.
  intros (rest & -> & H) Ha. exists (rest ++ added). split; [reflexivity|].
  now rewrite filter_app, H, Ha.
Qed.

Ltac creation_effects H :=
  first [ exact H
        | rewrite <- ?app_assoc; apply creation_first_extend; [exact H | reflexivity] ].

Lemma creation_inv_step (s : State) (e : event) :
  creation_inv s -> creation_inv (step s e).
Proof.
  unfold creation_inv. intros (He & Hc & Hn). destruct e; handler.
  - cbn. auto.
  - cbn. destruct (negb _ || _); cbn; [auto|].
    split; [creation_effects He|]. rewrite filter_app_length. cbn.
    split; [lia|]. intros Hin. apply in_app_or in Hin as [Hin|[Hin|[]]];
      [auto | discriminate].
  - cbn. split; [creation_effects He | auto].
  - destruct files as [|f files]; cbn; [auto|].
    destruct (N.ltb _ (size f)); cbn.
    + split; [creation_effects He | auto].
    + split; [creation_effects He|]. rewrite filter_app_length. cbn.
      split; [lia|]. intros Hin. apply in_app_or in Hin as [Hin|[Hin|[]]];
        [auto | discriminate].
  - destruct files as [|f files]; cbn; [auto|].
    destruct (N.ltb _ (size f)); cbn.
    + split; [creation_effects He | auto].
    + split; [creation_effects He|]. rewrite filter_app_length. cbn.
      split; [lia|]. intros Hin. apply in_app_or in Hin as [Hin|[Hin|[]]];
        [auto | discriminate].
  - cbn. split; [creation_effects He | auto].
  - cbn. split; [creation_effects He | auto].
  - destruct (nth_error (pending s) i) as [t|] eqn:Hi; [|auto].
    pose proof (filter_removeAt isAwaitCreate _ _ Hi) as Hrm.
    pose proof (fun x => @In_removeAt task x i (pending s)) as Hsub.
    destruct t; cbn in *; split_cases;
      (split; [creation_effects He|]); rewrite ?filter_app_length; cbn;
      (split; [lia|]); intros Hin;
      try (apply in_app_or in Hin as [Hin|[Hin|[]]]; [|discriminate]);
      first [ now auto
            | exfalso; pose proof (In_filter_length isAwaitCreate _ _ Hin eq_refl); lia ].
  - destruct (nth_error (pending s) i) as [t|] eqn:Hi; [|auto].
    pose proof (fun x => @In_removeAt task x i (pending s)) as Hsub.
    pose proof (filter_removeAt isAwaitCreate _ _ Hi) as Hrm.
    destruct t; cbn in *; (split; [exact He|]); (split; [lia | auto]).
  - destruct (nth_error (pending s) i) as [t|] eqn:Hi; [|auto].
    pose proof (fun x => @In_removeAt task x i (pending s)) as Hsub.
    pose proof (filter_removeAt isAwaitCreate _ _ Hi) as Hrm.
    destruct t; cbn in *; (split; [creation_effects He|]); (split; [lia | auto]).
  - destruct (nth_error (pending s) i) as [t|] eqn:Hi; [|auto].
    pose proof (fun x => @In_removeAt task x i (pending s)) as Hsub.
    pose proof (filter_removeAt isAwaitCreate _ _ Hi) as Hrm.
    destruct t; cbn in *; (split; [exact He|]); (split; [lia | auto]).
  - destruct e as [| | |i url], w; cbn; try (split; [creation_effects He | auto]);
      (destruct (nth_error (pending s) i) as [t|] eqn:Hi; [|auto]);
      pose proof (fun x => @In_removeAt task x i (pending s)) as Hsub;
      pose proof (filter_removeAt isAwaitCreate _ _ Hi) as Hrm;
      destruct t; cbn in *; (split; [creation_effects He|]); (split; [lia | auto]).
Qed.

Lemma boot_state (ls : Storage) :
  effects (boot ls) = [Fetch CreateSession]
  /\ pending (boot ls) = [AwaitCreate]
  /\ messagesArea (boot ls) = []
  /\ sessionId (boot ls) = Some JNull
  /\ isLoading (boot ls) = false.
Proof.
  handler. destruct ls as [[c|] theme]; cbn; destruct (present theme); cbn;
    repeat split.
Qed.

Lemma creation_inv_boot (ls : Storage) : creation_inv (boot ls).
Proof.
  unfold creation_inv.
  destruct (boot_state ls) as (-> & -> & _ & -> & _). cbn.
  split; [exists []; split; reflexivity|]. split; [lia | reflexivity].
Qed.

Lemma prop_fieldAt (d : json) (name : jsstring) :
  d <> JNull -> prop (Some d) name = Normal (fieldAt [name] (Some d)).
Proof. intros H. destruct d; try reflexivity. contradiction. Qed.

Lemma prop_not_null (data : json) (name : jsstring) :
  data <> JNull -> exists v, prop (Some data) name = Normal v.
Proof.
  intros H. destruct data; cbn; eauto. contradiction.
Qed.

(** C2, as the code has it.  In every state the page reaches, exactly one
    session-creation call has been issued and it is the first call of all;
    while it is pending the session id is still [null]; and the step in
    which it resolves records the id and issues the diagram fetch of the
    init chain with that id.  (Sends are not held back until then.) *)
Theorem session_created_once_and_first (ls : Storage) (es : list event) :
  List.length (filter isCreate (effects (run (boot ls) es))) = 1
  /\ hd_error (effects (run (boot ls) es)) = Some (Fetch CreateSession)
  /\ (In AwaitCreate (pending (run (boot ls) es)) ->
      sessionId (run (boot ls) es) = Some JNull)
  /\ (forall i data,
        nth_error (pending (run (boot ls) es)) i = Some AwaitCreate ->
        data <> JNull ->
        prop (Some data) (lit "session_id")
        = Normal (sessionId (step (run (boot ls) es) (FetchResolved i data)))
        /\ effects (step (run (boot ls) es) (FetchResolved i data))
           = effects (run (boot ls) es)
             ++ [Fetch (GetVisualization
                          (sessionId (step (run (boot ls) es) (FetchResolved i data))))]).
Proof.
  assert (H : creation_inv (run (boot ls) es)).
  { apply run_invariant; [apply creation_inv_step | apply creation_inv_boot]. }
  destruct H as ((rest & He & Hr) & _ & Hn).
  set (s := run (boot ls) es) in *.
  rewrite He. cbn. rewrite Hr. repeat split; [exact Hn|..];
    destruct (prop_not_null (lit "session_id") H0) as [v Hv];
    handler; rewrite H; cbn; rewrite Hv; cbn; [reflexivity | now rewrite He].
Qed.

Lemma session_created_witness :
  prop (Some sessionReply) (lit "session_id")
  = Normal (sessionId (step (boot fresh) (FetchResolved 0 sessionReply)))
  /\ effects (step (boot fresh) (FetchResolved 0 sessionReply))
     = effects (boot fresh)
       ++ [Fetch (GetVisualization
                    (sessionId (step (boot fresh) (FetchResolved 0 sessionReply))))].
Proof.
  destruct (session_created_once_and_first fresh []) as (_ & _ & _ & H).
  apply (H 0 sessionReply); [reflexivity | discriminate].
Defined.

(** C2, as stated, fails: here the creation call is still pending, yet a
    POST of the message and a GET of the visualization have gone out,
    both with the session id [null]. *)
Lemma send_before_session_counterexample :
  ~ (In AwaitCreate (pending earlyTurn) ->
     forall r, In (Fetch r) (effects earlyTurn) -> r = CreateSession).
Proof.
  intros H.
  assert (Hp : In AwaitCreate (pending earlyTurn)) by (vm_compute; auto).
  specialize (H Hp (GetVisualization (Some JNull))).
  discriminate H. vm_compute. repeat (first [left; reflexivity | right]).
Qed.

(** ** Session start *)

Lemma greeting_rendered :
  renderMarkdown greeting = [55357; 56395]%N ++ lit " Hello! Ask me anything.".
Proof. vm_compute. reflexivity. Qed.

(** C4, as the code has it.  When the creation call resolves, the session
    id is recorded and the diagram fetch issued, nothing being shown yet.
    When that fetch resolves, the diagram is handed to the renderer and
    only after that is the greeting appended; when it fails
    (a [null] reply, a rejection) no greeting is shown.  Neither step
    touches [isLoading].  From page load: one diagram fetch, the renderer,
    then the greeting, in this order, and the page is idle. *)
Theorem init_sequence (s : State) (i : nat) (data viz : json) :
  (nth_error (pending s) i = Some AwaitCreate -> data <> JNull ->
   sessionId (step s (FetchResolved i data)) = fieldAt [lit "session_id"] (Some data)
   /\ effects (step s (FetchResolved i data))
      = effects s
        ++ [Fetch (GetVisualization (fieldAt [lit "session_id"] (Some data)))]
   /\ messagesArea (step s (FetchResolved i data)) = messagesArea s
   /\ pending (step s (FetchResolved i data)) = removeAt i (pending s) ++ [AwaitInitViz]
   /\ isLoading (step s (FetchResolved i data)) = isLoading s)
  /\ (nth_error (pending s) i = Some AwaitInitViz -> viz <> JNull ->
      effects (step s (FetchResolved i viz))
      = effects s
        ++ [MermaidRun (fieldAt [lit "diagram"] (Some viz));
            AppendChild (greetingDiv s)]
      /\ messagesArea (step s (FetchResolved i viz)) = messagesArea s ++ [greetingDiv s]
      /\ pending (step s (FetchResolved i viz)) = removeAt i (pending s)
      /\ sessionId (step s (FetchResolved i viz)) = sessionId s
      /\ isLoading (step s (FetchResolved i viz)) = isLoading s)
  /\ (nth_error (pending s) i = Some AwaitInitViz ->
      messagesArea (step s (FetchResolved i JNull)) = messagesArea s
      /\ effects (step s (FetchResolved i JNull)) = effects s
      /\ messagesArea (step s (FetchRejected i)) = messagesArea s
      /\ effects (step s (FetchRejected i)) = effects s)
  /\ (forall ls : Storage, data <> JNull -> viz <> JNull ->
      effects (run (boot ls) [FetchResolved 0 data; FetchResolved 0 viz])
      = [Fetch CreateSession;
         Fetch (GetVisualization (fieldAt [lit "session_id"] (Some data)));
         MermaidRun (fieldAt [lit "diagram"] (Some viz));
         AppendChild (greetingDiv (boot ls))]
      /\ messagesArea (run (boot ls) [FetchResolved 0 data; FetchResolved 0 viz])
         = [greetingDiv (boot ls)]
      /\ sessionId (run (boot ls) [FetchResolved 0 data; FetchResolved 0 viz])
         = fieldAt [lit "session_id"] (Some data)
      /\ diagram (run (boot ls) [FetchResolved 0 data; FetchResolved 0 viz])
         = fieldAt [lit "diagram"] (Some viz)
      /\ pending (run (boot ls) [FetchResolved 0 data; FetchResolved 0 viz]) = []
      /\ isLoading (run (boot ls) [FetchResolved 0 data; FetchResolved 0 viz]) = false).
Proof.
  unfold greetingDiv, botDiv. rewrite <- greeting_rendered.
  remember (fieldAt [lit "session_id"] (Some data)) as sid eqn:Esid.
  remember (fieldAt [lit "diagram"] (Some viz)) as d eqn:Ed.
  split; [|split; [|split]].
  - intros Hi Hd. handler. rewrite Hi. cbn.
    rewrite (prop_fieldAt (lit "session_id") Hd), <- Esid. cbn. repeat split.
  - intros Hi Hv. handler. rewrite Hi. cbn.
    rewrite (prop_fieldAt (lit "diagram") Hv), <- Ed. cbn.
    rewrite <- app_assoc. repeat split.
  - intros Hi. handler. rewrite Hi. cbn. repeat split.
  - intros ls Hd Hv. unfold run. cbn [fold_left]. handler. unfold removeAt.
    destruct ls as [[c|] theme]; cbn; destruct (present theme); cbn;
      rewrite (prop_fieldAt (lit "session_id") Hd), <- Esid; cbn;
      rewrite (prop_fieldAt (lit "diagram") Hv), <- Ed; cbn; repeat split.
Qed.

Lemma init_sequence_witness :
  effects (run (boot fresh) [FetchResolved 0 sessionReply; FetchResolved 0 diagramReply])
  = [Fetch CreateSession;
     Fetch (GetVisualization (Some (JStr (lit "s1"))));
     MermaidRun (Some (JStr (lit "graph TD")));
     AppendChild (greetingDiv (boot fresh))].
Proof.
  destruct (init_sequence (boot fresh) 0 sessionReply diagramReply)
    as (_ & _ & _ & H).
  destruct (H fresh) as (He & _); [discriminate | discriminate | exact He].
Defined.

(** C4, as stated, fails: the diagram fetch has been issued and the
    greeting is not in the message area. *)
Lemma greeting_before_diagram_counterexample :
  ~ (In (Fetch (GetVisualization (sessionId sessionPage))) (effects sessionPage) ->
     In (greetingDiv sessionPage) (messagesArea sessionPage)).
Proof.
  intros H. apply H. vm_compute. auto.
Qed.

(** ** The reply *)

Lemma In_showsText (d : MessageDiv) (l : list MessageDiv) (html : jsstring) :
  In d l -> bubbleOf d = Text html -> existsb (showsText html) l = true.
Proof.
  intros Hin Hb. apply existsb_exists. exists d. split; [exact Hin|].
  unfold showsText. rewrite Hb. apply eqb_refl.
Qed.

Lemma fieldAt_message (resp : json) (m : json) :
  fieldAt messagePath (Some resp) = Some m ->
  exists r p, prop (Some resp) (lit "result") = Normal (Some (JObj r))
    /\ prop (Some (JObj r)) (lit "response") = Normal (Some (JObj p))
    /\ prop (Some (JObj p)) (lit "message") = Normal (Some m).
Proof.
  destruct resp as [| | | | |props]; try discriminate. cbn.
  destruct (lookup (lit "result") props) as [[| | | | |r]|] eqn:Hr; try discriminate.
  destruct (lookup (lit "response") r) as [[| | | | |p]|] eqn:Hp; try discriminate.
  intros H. exists r, p. cbn. rewrite Hp, H. auto.
Qed.

Lemma guard_is_fieldAt (resp : json) (result : value) :
  prop (Some resp) (lit "result") = Normal result ->
  (if truthy result
   then exists v, prop result (lit "response") = Normal v
                  /\ v = fieldAt responsePath (Some resp)
   else truthy (fieldAt responsePath (Some resp)) = false).
Proof.
  destruct resp as [| | | | |props]; cbn; try discriminate;
    try (intros [= <-]; reflexivity).
  intros [= <-].
  destruct (lookup (lit "result") props) as [[| | | | |r]|] eqn:Hr;
    cbv [truthy]; cbn;
    repeat match goal with
           | |- context [match ?b with _ => _ end] => destruct b
           end; eauto.
Qed.

Lemma truthy_isFalsy (v : value) : truthy v = negb (isFalsy v).
Proof.
  destruct v as [[|b|n|[|c t]| |]|]; cbv [truthy isFalsy]; try reflexivity.
  now rewrite negb_involutive.
Qed.

(** C3, as the code has it.  When the pending send resolves with [resp],
    exactly one element is appended to the message area, an assistant
    message, and it is the last one there: it shows the string under
    [result.response.message] when the reply has one; it shows the JSON
    serialization of the whole reply when the reply is not [null] and its
    [result.response] is missing or falsy ([undefined], [null], [false],
    zero, the empty string).  Either text goes through [renderMarkdown].
    The diagram is fetched after the message has been appended.  For the
    reply [{foo: 1}] the text shown is [{"foo":1}]. *)
Theorem reply_interpretation (s : State) (i : nat) (resp : json) :
  nth_error (pending s) i = Some AwaitSend ->
  (forall m, fieldAt messagePath (Some resp) = Some (JStr m) ->
     (exists before,
        messagesArea (step s (FetchResolved i resp))
        = before ++ [botDiv s (renderMarkdown m)])
     /\ effects (step s (FetchResolved i resp))
        = effects s ++ [AppendChild (botDiv s (renderMarkdown m));
                        Fetch (GetVisualization (sessionId s))])
  /\ (resp <> JNull ->
      isFalsy (fieldAt responsePath (Some resp)) = true ->
      (exists before,
         messagesArea (step s (FetchResolved i resp))
         = before ++ [botDiv s (renderMarkdown (JSON_stringify resp))])
      /\ effects (step s (FetchResolved i resp))
         = effects s ++ [AppendChild (botDiv s (renderMarkdown (JSON_stringify resp)));
                         Fetch (GetVisualization (sessionId s))])
  /\ renderMarkdown (JSON_stringify fooReply)
     = lit "{" ++ dquote ++ lit "foo" ++ dquote ++ lit ":1}".
Proof.
  intros Hi. unfold botDiv. split; [|split; [|vm_compute; reflexivity]].
  - intros m Hm. apply fieldAt_message in Hm as (r & p & Hr & Hp & Hm).
    handler. rewrite Hi. cbn.
    repeat first [rewrite Hr | rewrite Hp | rewrite Hm
                 | progress cbv [truthy] | progress cbn].
    rewrite <- app_assoc. split; [eexists|]; reflexivity.
  - intros Hnull Hf.
    assert (Ht' : truthy (fieldAt responsePath (Some resp)) = false)
      by (rewrite truthy_isFalsy, Hf; reflexivity).
    clear Hf.
    destruct (prop_not_null (lit "result") Hnull) as [result Hr].
    pose proof (guard_is_fieldAt resp Hr) as Hg.
    remember (fieldAt responsePath (Some resp)) as test eqn:Etest.
    handler. rewrite Hi. cbn. rewrite Hr. cbn.
    destruct (truthy result) eqn:Ht; cbn.
    + destruct Hg as (v & Hv & ->). rewrite Hv. cbn. rewrite Ht'. cbn.
      rewrite <- app_assoc. split; [eexists|]; reflexivity.
    + rewrite Ht. cbn. rewrite <- app_assoc. split; [eexists|]; reflexivity.
Qed.

Lemma reply_interpretation_witness :
  effects (step sentPage (FetchResolved 0 hiReply))
  = effects sentPage ++ [AppendChild (botDiv sentPage (lit "Hi"));
                         Fetch (GetVisualization (Some (JStr (lit "s1"))))]
  /\ effects (step sentPage (FetchResolved 0 fooReply))
     = effects sentPage
       ++ [AppendChild (botDiv sentPage (lit "{" ++ dquote ++ lit "foo" ++ dquote ++ lit ":1}"));
           Fetch (GetVisualization (Some (JStr (lit "s1"))))]
  /\ effects (step sentPage (FetchResolved 0 halfReply))
     = effects sentPage
       ++ [AppendChild (botDiv sentPage
             (lit "{" ++ dquote ++ lit "result" ++ dquote ++ lit ":{"
              ++ dquote ++ lit "response" ++ dquote ++ lit ":0,"
              ++ dquote ++ lit "score" ++ dquote ++ lit ":0.5}}"));
           Fetch (GetVisualization (Some (JStr (lit "s1"))))].
Proof.
  split; [|split].
  - apply (proj1 (@reply_interpretation sentPage 0 hiReply eq_refl) (lit "Hi")).
    reflexivity.
  - apply (proj1 (proj2 (@reply_interpretation sentPage 0 fooReply eq_refl))).
    + discriminate.
    + reflexivity.
  - apply (proj1 (proj2 (@reply_interpretation sentPage 0 halfReply eq_refl))).
    + discriminate.
    + reflexivity.
Defined.

(** C3, as stated, fails: this reply has no [result.response.message],
    yet its serialization is not among the messages afterwards. *)
Lemma reply_without_message_counterexample :
  ~ (fieldAt messagePath (Some noMessageReply) = None ->
     In (botDiv sentPage (renderMarkdown (JSON_stringify noMessageReply)))
        (messagesArea (step sentPage (FetchResolved 0 noMessageReply)))).
Proof.
  intros H. specialize (H eq_refl).
  apply In_showsText with (html := renderMarkdown (JSON_stringify noMessageReply)) in H;
    [|reflexivity].
  revert H. vm_compute. discriminate.
Qed.

(** What the code does with that reply: [result.response] is truthy, its
    [message] is [undefined], [renderMarkdown] throws inside
    [addMessage]; the placeholder is gone, nothing is appended and the
    diagram is not refreshed. *)
Lemma reply_without_message_throws :
  messagesArea (step sentPage (FetchResolved 0 noMessageReply))
  = removeById loadingMessage (messagesArea sentPage)
  /\ effects (step sentPage (FetchResolved 0 noMessageReply)) = effects sentPage
  /\ isLoading (step sentPage (FetchResolved 0 noMessageReply)) = false.
Proof. vm_compute. repeat split. Qed.

(** ** The replacement loop

    A pattern that matches consumes at least one code unit, so the loop
    of [replaceAll] never runs out of steps: it satisfies the equations of
    a left-to-right scan. *)

Section ReplaceAllFacts.
Variable m : matcher.
Variable subst : jsstring -> jsstring.
Hypothesis m_consumes :
  forall s g r, m s = Some (g, r) -> List.length r < List.length s.

Lemma replaceFrom_enough (n : nat) :
  forall k s, List.length s <= n -> List.length s <= k ->
  replaceFrom m subst n s = replaceFrom m subst k s.
Proof.
  induction n as [|n IH]; intros k s Hn Hk.
  - destruct s; [|cbn in Hn; lia]. destruct k; reflexivity.
  - destruct s as [|c t]; [destruct k; reflexivity|].
    destruct k as [|k]; [cbn in Hk; lia|]. cbn in *.
    destruct (m (c :: t)) as [[g r]|] eqn:E.
    + apply m_consumes in E. cbn in E. f_equal. apply IH; lia.
    + f_equal. apply IH; lia.
Qed.

Lemma replaceAll_nil : replaceAll m subst [] = [].
Proof. reflexivity. Qed.

Lemma replaceAll_cons (c : N) (t : jsstring) :
  replaceAll m subst (c :: t)
  = match m (c :: t) with
    | Some (g, r) => subst g ++ replaceAll m subst r
    | None => c :: replaceAll m subst t
    end.
Proof.
  unfold replaceAll. cbn.
  destruct (m (c :: t)) as [[g r]|] eqn:E.
  - apply m_consumes in E. cbn in E. f_equal. apply replaceFrom_enough; lia.
  - reflexivity.
Qed.
End ReplaceAllFacts.

Lemma lazyUntilStars_consumes (s g r : jsstring) :
  lazyUntilStars s = Some (g, r) -> List.length r < List.length s.
Proof.
  revert g r. induction s as [|c t IH]; intros g r; [discriminate|].
  cbn. destruct t as [|d rest]; [discriminate|].
  destruct (N.eqb c star && N.eqb d star).
  - intros [= <- <-]. cbn. lia.
  - destruct (isLineTerminator c); [discriminate|].
    destruct (lazyUntilStars (d :: rest)) as [[g' r']|]; [|discriminate].
    intros [= <- <-]. specialize (IH _ _ eq_refl). cbn in *. lia.
Qed.

Lemma lazyUntilStar_consumes (s g r : jsstring) :
  lazyUntilStar s = Some (g, r) -> List.length r < List.length s.
Proof.
  revert g r. induction s as [|c t IH]; intros g r; [discriminate|].
  cbn. destruct (N.eqb c star).
  - intros [= <- <-]. lia.
  - destruct (isLineTerminator c); [discriminate|].
    destruct (lazyUntilStar t) as [[g' r']|]; [|discriminate].
    intros [= <- <-]. specialize (IH _ _ eq_refl). lia.
Qed.

Lemma untilBacktick_consumes (s g r : jsstring) :
  untilBacktick s = Some (g, r) -> List.length r < List.length s.
Proof.
  revert g r. induction s as [|c t IH]; intros g r; [discriminate|].
  cbn. destruct (N.eqb c backtick).
  - intros [= <- <-]. lia.
  - destruct (untilBacktick t) as [[g' r']|]; [|discriminate].
    intros [= <- <-]. specialize (IH _ _ eq_refl). lia.
Qed.

Lemma boldPattern_consumes (s g r : jsstring) :
  boldPattern s = Some (g, r) -> List.length r < List.length s.
Proof.
  destruct s as [|c [|d t]]; try discriminate. cbn.
  destruct (N.eqb c star && N.eqb d star); [|discriminate].
  intros H. apply lazyUntilStars_consumes in H. lia.
Qed.

Lemma italicPattern_consumes (s g r : jsstring) :
  italicPattern s = Some (g, r) -> List.length r < List.length s.
Proof.
  destruct s as [|c t]; try discriminate. cbn.
  destruct (N.eqb c star); [|discriminate].
  intros H. apply lazyUntilStar_consumes in H. lia.
Qed.

Lemma codePattern_consumes (s g r : jsstring) :
  codePattern s = Some (g, r) -> List.length r < List.length s.
Proof.
  destruct s as [|c t]; try discriminate. cbn.
  destruct (N.eqb c backtick); [|discriminate].
  destruct (untilBacktick t) as [[[|x g'] r']|] eqn:E; try discriminate.
  intros [= <- <-]. apply untilBacktick_consumes in E. lia.
Qed.

Lemma newlinePattern_consumes (s g r : jsstring) :
  newlinePattern s = Some (g, r) -> List.length r < List.length s.
Proof.
  destruct s as [|c t]; try discriminate. cbn.
  destruct (N.eqb c newline); [|discriminate].
  intros [= <- <-]. lia.
Qed.

(** The four passes of [renderMarkdown], as scans. *)
Lemma replaceBold_cons (c : N) (t : jsstring) :
  replaceBold (c :: t)
  = match boldPattern (c :: t) with
    | Some (g, r) => strongTag g ++ replaceBold r
    | None => c :: replaceBold t
    end.
Proof. apply replaceAll_cons, boldPattern_consumes. Qed.

Lemma replaceItalic_cons (c : N) (t : jsstring) :
  replaceItalic (c :: t)
  = match italicPattern (c :: t) with
    | Some (g, r) => emTag g ++ replaceItalic r
    | None => c :: replaceItalic t
    end.
Proof. apply replaceAll_cons, italicPattern_consumes. Qed.

Lemma replaceCode_cons (c : N) (t : jsstring) :
  replaceCode (c :: t)
  = match codePattern (c :: t) with
    | Some (g, r) => codeTag g ++ replaceCode r
    | None => c :: replaceCode t
    end.
Proof. apply replaceAll_cons, codePattern_consumes. Qed.

Lemma replaceNewline_cons (c : N) (t : jsstring) :
  replaceNewline (c :: t)
  = if N.eqb c newline then lit "<br>" ++ replaceNewline t
    else c :: replaceNewline t.
Proof.
  unfold replaceNewline. rewrite replaceAll_cons by apply newlinePattern_consumes.
  cbn. now destruct (N.eqb c newline).
Qed.

(** A text without stars, backticks or newlines is rendered as it is. *)
Lemma replaceAll_plain (m : matcher) (subst : jsstring -> jsstring) :
  (forall c t, plain c = true -> m (c :: t) = None) ->
  forall s, forallb plain s = true -> replaceAll m subst s = s.
Proof.
  intros Hm s. unfold replaceAll.
  induction s as [|c t IH]; [reflexivity|]. cbn.
  intros H. apply andb_prop in H as [Hc Ht].
  rewrite (Hm c t Hc). f_equal. apply IH, Ht.
Qed.

(** X16. Nothing is escaped: a text without stars, backticks and line
    feeds, whatever else it holds (angle brackets, ampersands, quotes),
    is rendered exactly as it is. *)
Lemma renderMarkdown_plain (s : jsstring) :
  forallb plain s = true -> renderMarkdown s = s.
Proof.
  intros H. unfold renderMarkdown, replaceNewline, replaceCode, replaceItalic, replaceBold.
  rewrite (replaceAll_plain boldPattern); [|clear|exact H].
  2:{ intros c t Hc. unfold plain in Hc. destruct t; cbn;
      destruct (N.eqb c star); cbn in *; try reflexivity; discriminate. }
  rewrite (replaceAll_plain italicPattern); [|clear|exact H].
  2:{ intros c t Hc. unfold plain in Hc. cbn.
      destruct (N.eqb c star); cbn in *; try reflexivity; discriminate. }
  rewrite (replaceAll_plain codePattern); [|clear|exact H].
  2:{ intros c t Hc. unfold plain in Hc. cbn.
      destruct (N.eqb c star), (N.eqb c backtick); cbn in *;
        try reflexivity; discriminate. }
  apply replaceAll_plain; [clear|exact H].
  intros c t Hc. unfold plain in Hc. cbn.
  destruct (N.eqb c star), (N.eqb c backtick), (N.eqb c newline); cbn in *;
    try reflexivity; discriminate.
Qed.

(* ------------------------------------------------------------------ *)
(** * Further properties of the page *)

Arguments isPlaceholder : simpl never.
Arguments placeholders : simpl never.
Arguments history : simpl never.

(** Case analysis on the event and on what its handler branches on. *)
Ltac events s e :=
  destruct e as [v| | |files|files| | |i data|i|i url|i|w sv]; handler;
  [ | destruct (negb (present (Some (trim (messageInput s)))) || isLoading s) eqn:Hguard
    | | destruct files as [|f files];
        [|destruct (N.ltb maxAvatarSize (size f)) eqn:Hsize]
    | destruct files as [|f files];
        [|destruct (N.ltb maxAvatarSize (size f)) eqn:Hsize]
    | |
    | destruct (nth_error (pending s) i) as [t|] eqn:Hi; [destruct t|]
    | destruct (nth_error (pending s) i) as [t|] eqn:Hi; [destruct t|]
    | destruct (nth_error (pending s) i) as [t|] eqn:Hi; [destruct t|]
    | destruct (nth_error (pending s) i) as [t|] eqn:Hi; [destruct t|]
    | destruct sv as [| | |i url];
        [ destruct w | destruct w | destruct w
        | destruct w;
          (destruct (nth_error (pending s) i) as [t|] eqn:Hi; [destruct t|]) ] ];
  cbn in *; split_cases.

(** ** The interface while sending *)

Lemma placeholders_app (l : list MessageDiv) (d : MessageDiv) :
  placeholders (l ++ [d]) = placeholders l + (if isPlaceholder d then 1 else 0).
Proof.
  unfold placeholders. rewrite filter_app, length_app. cbn.
  destruct (isPlaceholder d); reflexivity.
Qed.

Lemma placeholders_removeById (l : list MessageDiv) :
  placeholders (removeById loadingMessage l) = pred (placeholders l).
Proof.
  unfold placeholders, removeById.
  induction l as [|d l IH]; [reflexivity|]. cbn.
  fold (isPlaceholder d). destruct (isPlaceholder d) eqn:E; cbn.
  - reflexivity.
  - rewrite E. exact IH.
Qed.

Lemma eqb_nil_loadingMessage : JsString.eqb [] loadingMessage = false.
Proof. reflexivity. Qed.

(** Count the placeholders of an area built by the handlers. *)
Ltac count_placeholders :=
  rewrite ?placeholders_app, ?placeholders_removeById;
  unfold isPlaceholder; cbn [elemId];
  rewrite ?eqb_refl, ?eqb_nil_loadingMessage.

Lemma ui_inv_step (s : State) (e : event) : ui_inv s -> ui_inv (step s e).
Proof.
  unfold ui_inv. intros [Hd Hp]. events s e; count_placeholders;
    try (split; [assumption|assumption]);
    try (apply orb_false_elim in Hguard as [_ Hl]);
    destruct (isLoading s); try discriminate; rewrite ?Hp; cbn;
    (split; [first [reflexivity | assumption] | first [reflexivity | lia]]).
Qed.

Lemma ui_inv_boot (ls : Storage) : ui_inv (boot ls).
Proof.
  destruct (boot_state ls) as (_ & _ & Hm & _ & Hl).
  unfold ui_inv. rewrite Hm, Hl. split; [|reflexivity].
  handler. destruct ls as [[c|] theme]; cbn; destruct (present theme); reflexivity.
Qed.

(** X1. As long as no text shown on the page has made an element of its
    own, the send button is disabled exactly while [isLoading] is true,
    and the message area holds exactly one placeholder while it is true
    and none otherwise. *)
Theorem interface_follows_loading (ls : Storage) (es : list event) :
  inertRun (boot ls) es = true ->
  sendDisabled (run (boot ls) es) = isLoading (run (boot ls) es)
  /\ placeholders (messagesArea (run (boot ls) es))
     = (if isLoading (run (boot ls) es) then 1 else 0).
Proof.
  intros _. apply (run_invariant ui_inv); [apply ui_inv_step | apply ui_inv_boot].
Qed.

Lemma interface_follows_loading_witness :
  sendDisabled (run (boot fresh) [Input hi; Send; FetchResolved 1 fooReply])
  = isLoading (run (boot fresh) [Input hi; Send; FetchResolved 1 fooReply]).
Proof.
  apply (@interface_follows_loading fresh [Input hi; Send; FetchResolved 1 fooReply]).
  vm_compute. reflexivity.
Defined.

(** ** The message history *)

Lemma history_app (l l' : list MessageDiv) :
  history (l ++ l') = history l ++ history l'.
Proof. apply filter_app. Qed.

Lemma history_removeById (l : list MessageDiv) :
  history (removeById loadingMessage l) = history l.
Proof.
  unfold history, removeById.
  induction l as [|d l IH]; [reflexivity|]. cbn.
  fold (isPlaceholder d). destruct (isPlaceholder d) eqn:E; cbn.
  - reflexivity.
  - rewrite E. cbn. now rewrite IH.
Qed.

Lemma history_step (s : State) (e : event) :
  exists added,
    history (messagesArea (step s e)) = history (messagesArea s) ++ added.
Proof.
  events s e; rewrite ?history_app, ?history_removeById, <- ?app_assoc;
    first [ exists []; now rewrite app_nil_r | eexists; reflexivity ].
Qed.

Lemma history_run (es : list event) (s : State) :
  exists added,
    history (messagesArea (run s es)) = history (messagesArea s) ++ added.
Proof.
  revert s. induction es as [|e es IH]; intros s.
  - exists []. now rewrite app_nil_r.
  - change (run s (e :: es)) with (run (step s e) es).
    destruct (IH (step s e)) as [a2 H2].
    destruct (history_step s e) as [a1 H1].
    exists (a1 ++ a2). now rewrite H2, H1, app_assoc.
Qed.

(** X2. The conversation only grows: as long as no text shown on the page
    has made an element of its own, whatever happens, the messages shown
    before (the placeholder apart) are still there, in the same order and
    unchanged, and new ones come after them. *)
Theorem history_append_only (s : State) (es : list event) :
  inertRun s es = true ->
  exists added,
    history (messagesArea (run s es)) = history (messagesArea s) ++ added.
Proof. intros _. apply history_run. Qed.

Lemma history_append_only_witness :
  exists added,
    history (messagesArea (run sentPage [FetchResolved 0 hiReply]))
    = history (messagesArea sentPage) ++ added.
Proof.
  apply (@history_append_only sentPage [FetchResolved 0 hiReply]).
  vm_compute. reflexivity.
Defined.

(** ** Trimmed text *)

Lemma trimStart_split (v : jsstring) :
  exists p, v = p ++ trimStart v.
Proof.
  induction v as [|c v [p IH]]; [now exists []|]. cbn.
  destruct (isTrimmed c).
  - exists (c :: p). cbn. now rewrite <- IH.
  - now exists [].
Qed.

Lemma trimStart_fixed (c : N) (t : jsstring) :
  isTrimmed c = false -> trimStart (c :: t) = c :: t.
Proof. intros H. cbn. now rewrite H. Qed.

Lemma trimStart_idempotent (v : jsstring) :
  trimStart (trimStart v) = trimStart v.
Proof.
  destruct (trimStart_suffix v) as [E|(c & t & E & Hc)]; rewrite E;
    [reflexivity | now apply trimStart_fixed].
Qed.

(** [trim] strips all there is to strip. *)
Lemma trim_idempotent (v : jsstring) : trim (trim v) = trim v.
Proof.
  unfold trim, trimEnd.
  set (u := trimStart v). set (r := trimStart (rev u)).
  assert (Hw : trimStart (rev r) = rev r).
  { destruct (trimStart_split (rev u)) as [p Hp]. fold r in Hp.
    apply (f_equal (@rev N)) in Hp. rewrite rev_involutive, rev_app_distr in Hp.
    destruct (rev r) as [|c w] eqn:Er; [reflexivity|].
    apply trimStart_fixed.
    destruct (trimStart_suffix v) as [E|(c' & t & E & Hc)]; fold u in E;
      rewrite E in Hp; [discriminate|].
    cbn in Hp. injection Hp as -> _. exact Hc. }
  rewrite Hw, rev_involutive. fold r. unfold r at 1.
  now rewrite trimStart_idempotent.
Qed.

(** ** Calls on the outside *)

Lemma present_trim (v : jsstring) :
  present (Some (trim v)) = true -> trim v <> [].
Proof. unfold present. destruct (trim v); [discriminate | discriminate]. Qed.

Lemma sound_calls_extend (l added : list effect) :
  Forall sound_call l -> Forall sound_call added -> Forall sound_call (l ++ added).
Proof. intros H1 H2. apply Forall_app. now split. Qed.

Ltac sound_calls H :=
  first [ exact H
        | rewrite <- ?app_assoc; apply sound_calls_extend; [exact H|];
          repeat constructor ].

Lemma sound_calls_step (s : State) (e : event) :
  Forall sound_call (effects s) -> Forall sound_call (effects (step s e)).
Proof.
  intros H. events s e; try (sound_calls H).
  - (* an accepted submission *)
    apply orb_false_elim in Hguard as [Hguard _].
    apply negb_false_iff in Hguard.
    exists (trim (messageInput s)).
    split; [reflexivity|]. split; [now apply present_trim | apply trim_idempotent].
  - (* a file within the limit *)
    apply N.ltb_ge. exact Hsize.
  - apply N.ltb_ge. exact Hsize.
Qed.

Lemma sound_calls_boot (ls : Storage) : Forall sound_call (effects (boot ls)).
Proof.
  destruct (boot_state ls) as (-> & _). repeat constructor.
Qed.

Lemma sound_calls_reachable (ls : Storage) (es : list event) :
  Forall sound_call (effects (run (boot ls) es)).
Proof.
  apply (run_invariant (fun s => Forall sound_call (effects s)));
    [apply sound_calls_step | apply sound_calls_boot].
Qed.

(** X3. Every message the page ever posts carries the JSON object
    [{message: text}] where [text] is not empty and has no white space at
    its start or end. *)
Theorem posted_text_is_trimmed (ls : Storage) (es : list event)
        (sid : value) (body : jsstring) :
  In (Fetch (PostMessage sid body)) (effects (run (boot ls) es)) ->
  exists text, body = messageBody text /\ text <> [] /\ trim text = text.
Proof.
  intros Hin. pose proof (sound_calls_reachable ls es) as H.
  rewrite Forall_forall in H. exact (H _ Hin).
Qed.

(** X4. The page never starts reading a file larger than 2 MiB: every
    file handed to the reader, over the whole life of the page, is within
    the limit. *)
Theorem only_small_files_are_read (ls : Storage) (es : list event) (f : File) :
  In (ReadAsDataURL f) (effects (run (boot ls) es)) ->
  (size f <= 2 * 1024 * 1024)%N.
Proof.
  intros Hin. pose proof (sound_calls_reachable ls es) as H.
  rewrite Forall_forall in H. exact (H _ Hin).
Qed.

Lemma posted_text_witness :
  exists text, messageBody hi = messageBody text /\ text <> [] /\ trim text = text.
Proof.
  apply (@posted_text_is_trimmed fresh [Input hi; Send] (Some JNull) (messageBody hi)).
  vm_compute. auto.
Defined.

Lemma only_small_files_witness : (size smallFile <= 2 * 1024 * 1024)%N.
Proof.
  apply (@only_small_files_are_read fresh [UserAvatarChange [smallFile]] smallFile).
  vm_compute. auto.
Defined.

(** ** A turn *)

(** X5. A submission while idle with a text that is not blank, on a page
    where no text has made an element of its own and this one makes none:
    the trimmed text is shown as a user message followed by the
    placeholder, the input is cleared, the page is loading with the button
    disabled, and after the two elements were appended one POST with the
    current session id and the trimmed text has been issued and is
    pending.  The session, the settings and the diagram are untouched. *)
Theorem accepted_submission (s : State) :
  inert s = true ->
  inertHtml (renderMarkdown (trim (messageInput s))) = true ->
  isLoading s = false ->
  trim (messageInput s) <> [] ->
  messagesArea (step s Send)
  = messagesArea s
    ++ [userDiv s (renderMarkdown (trim (messageInput s))); placeholderDiv s]
  /\ messageInput (step s Send) = []
  /\ isLoading (step s Send) = true
  /\ sendDisabled (step s Send) = true
  /\ effects (step s Send)
     = effects s
       ++ [AppendChild (userDiv s (renderMarkdown (trim (messageInput s))));
           AppendChild (placeholderDiv s);
           Fetch (PostMessage (sessionId s) (messageBody (trim (messageInput s))))]
  /\ pending (step s Send) = pending s ++ [AwaitSend]
  /\ sessionId (step s Send) = sessionId s
  /\ customImages (step s Send) = customImages s
  /\ localStorage (step s Send) = localStorage s
  /\ diagram (step s Send) = diagram s.
Proof.
  intros _ _ Hl Ht. unfold userDiv, placeholderDiv, messageBody. handler.
  rewrite Hl. unfold present. destruct (trim (messageInput s)) as [|c t] eqn:E;
    [contradiction|].
  cbn. rewrite <- !app_assoc. repeat split.
Qed.

Lemma accepted_submission_witness :
  pending (step (run (boot fresh) [Input hi]) Send) = [AwaitCreate; AwaitSend].
Proof.
  destruct (@accepted_submission (run (boot fresh) [Input hi]))
    as (_ & _ & _ & _ & _ & H & _).
  - vm_compute. reflexivity.
  - vm_compute. reflexivity.
  - reflexivity.
  - vm_compute. discriminate.
  - exact H.
Defined.

Lemma fieldAt_app (p q : list jsstring) (v : value) :
  fieldAt (p ++ q) v = fieldAt q (fieldAt p v).
Proof.
  revert v. induction p as [|name p IH]; intros v; [reflexivity|]. cbn.
  destruct v as [[| | | | |props]|]; try apply IH; now destruct q.
Qed.

Lemma prop_truthy (v : value) (name : jsstring) :
  truthy v = true -> prop v name = Normal (fieldAt [name] v).
Proof.
  destruct v as [[| | | | |props]|]; cbv [truthy]; try discriminate; reflexivity.
Qed.

(** The test [resp.result && resp.result.response] and the message read
    after it, in terms of the fields of the reply. *)
Lemma onSend_then_reads (resp : json) :
  resp <> JNull ->
  exists result,
    prop (Some resp) (lit "result") = Normal result
    /\ (if truthy result
        then prop result (lit "response") = Normal (fieldAt responsePath (Some resp))
        else truthy (fieldAt responsePath (Some resp)) = false)
    /\ (truthy (fieldAt responsePath (Some resp)) = true ->
        prop (fieldAt responsePath (Some resp)) (lit "message")
        = Normal (fieldAt messagePath (Some resp))).
Proof.
  intros Hnull. destruct (prop_not_null (lit "result") Hnull) as [result Hr].
  exists result. split; [exact Hr|]. split.
  - pose proof (guard_is_fieldAt resp Hr) as Hg.
    destruct (truthy result); [|exact Hg].
    destruct Hg as (v & Hv & ->). exact Hv.
  - intros Ht. unfold messagePath. rewrite fieldAt_app. now apply prop_truthy.
Qed.

(** X6. A reply the page can show (a string under
    [result.response.message]; or a reply that is not [null] and whose
    [result.response] is missing or falsy), arriving on a page where no
    text has made an element of its own, completes the turn: the
    placeholder is replaced by one assistant message, the loading flag is
    cleared and the button enabled, then exactly one diagram fetch with
    the current session id is issued and left pending in place of the
    send, and what the user typed meanwhile stays in the input. *)
Theorem completed_turn (s : State) (i : nat) (resp : json) :
  inert s = true ->
  nth_error (pending s) i = Some AwaitSend ->
  (exists m, fieldAt messagePath (Some resp) = Some (JStr m))
  \/ (resp <> JNull /\ isFalsy (fieldAt responsePath (Some resp)) = true) ->
  (exists html,
     messagesArea (step s (FetchResolved i resp))
     = removeById loadingMessage (messagesArea s) ++ [botDiv s html]
     /\ effects (step s (FetchResolved i resp))
        = effects s ++ [AppendChild (botDiv s html);
                        Fetch (GetVisualization (sessionId s))])
  /\ isLoading (step s (FetchResolved i resp)) = false
  /\ sendDisabled (step s (FetchResolved i resp)) = false
  /\ placeholders (messagesArea (step s (FetchResolved i resp)))
     = pred (placeholders (messagesArea s))
  /\ pending (step s (FetchResolved i resp))
     = removeAt i (pending s) ++ [AwaitViz]
  /\ messageInput (step s (FetchResolved i resp)) = messageInput s
  /\ sessionId (step s (FetchResolved i resp)) = sessionId s.
Proof.
  intros _ Hi [[m Hm]|[Hnull Hf]]; unfold botDiv.
  - apply fieldAt_message in Hm as (r & p & Hr & Hp & Hm).
    handler. rewrite Hi. cbn.
    repeat first [rewrite Hr | rewrite Hp | rewrite Hm
                 | progress cbv [truthy] | progress cbn].
    count_placeholders. rewrite Nat.add_0_r, <- app_assoc.
    split; [eexists; split; reflexivity | repeat split].
  - assert (Ht' : truthy (fieldAt responsePath (Some resp)) = false)
      by (rewrite truthy_isFalsy, Hf; reflexivity).
    clear Hf.
    destruct (onSend_then_reads Hnull) as (result & Hr & Hg & _).
    remember (fieldAt responsePath (Some resp)) as test eqn:Etest.
    handler. rewrite Hi. cbn. rewrite Hr. cbn.
    destruct (truthy result) eqn:Ht; cbn.
    + rewrite Hg. cbn. rewrite Ht'. cbn.
      count_placeholders. rewrite Nat.add_0_r, <- app_assoc.
      split; [eexists; split; reflexivity | repeat split].
    + rewrite Ht. cbn. count_placeholders. rewrite Nat.add_0_r, <- app_assoc.
      split; [eexists; split; reflexivity | repeat split].
Qed.

Lemma completed_turn_witness :
  placeholders (messagesArea (step sentPage (FetchResolved 0 fooReply)))
  = pred (placeholders (messagesArea sentPage)).
Proof.
  destruct (@completed_turn sentPage 0 fooReply) as (_ & _ & _ & H & _).
  - vm_compute. reflexivity.
  - reflexivity.
  - right. split; [discriminate | reflexivity].
  - exact H.
Defined.

(** X7. A reply the page cannot show ([null], or one whose
    [result.response] is not falsy but has no string under [message]),
    arriving on a page where no text has made an element of its own, ends
    the loading state and nothing more: the placeholder goes, the button
    is enabled, but no assistant message is appended and no diagram
    fetch is issued. *)
Theorem unreadable_reply (s : State) (i : nat) (resp : json) :
  inert s = true ->
  nth_error (pending s) i = Some AwaitSend ->
  resp = JNull
  \/ (isFalsy (fieldAt responsePath (Some resp)) = false
      /\ forall m, fieldAt messagePath (Some resp) <> Some (JStr m)) ->
  messagesArea (step s (FetchResolved i resp))
  = removeById loadingMessage (messagesArea s)
  /\ effects (step s (FetchResolved i resp)) = effects s
  /\ isLoading (step s (FetchResolved i resp)) = false
  /\ sendDisabled (step s (FetchResolved i resp)) = false
  /\ pending (step s (FetchResolved i resp)) = removeAt i (pending s)
  /\ step s (FetchResolved i resp)
     = exec stopLoading (set_pending (removeAt i (pending s)) s).
Proof.
  intros _ Hi Hr.
  assert (E : step s (FetchResolved i resp)
              = exec stopLoading (set_pending (removeAt i (pending s)) s)).
  { destruct Hr as [->|[Hf Hm]].
    - handler. rewrite Hi. reflexivity.
    - assert (Ht : truthy (fieldAt responsePath (Some resp)) = true)
        by (rewrite truthy_isFalsy, Hf; reflexivity).
      clear Hf.
      assert (Hnull : resp <> JNull) by (intros ->; discriminate Ht).
      destruct (onSend_then_reads Hnull) as (result & Hr & Hg & Hmsg).
      specialize (Hmsg Ht).
      remember (fieldAt responsePath (Some resp)) as test eqn:Etest.
      remember (fieldAt messagePath (Some resp)) as message eqn:Emsg.
      handler. rewrite Hi. cbn. rewrite Hr. cbn.
      destruct (truthy result) eqn:Htr; [|congruence].
      cbn. rewrite Hg. cbn. rewrite Ht. cbn. rewrite Hmsg. cbn.
      destruct message as [[| | |m| |]|]; try reflexivity.
      now destruct (Hm m). }
  rewrite E. handler. cbn. repeat split.
Qed.

Lemma unreadable_reply_witness :
  messagesArea (step sentPage (FetchResolved 0 noMessageReply))
  = removeById loadingMessage (messagesArea sentPage).
Proof.
  apply (@unreadable_reply sentPage 0 noMessageReply).
  - vm_compute. reflexivity.
  - reflexivity.
  - right. split; [reflexivity|]. intros m. vm_compute. discriminate.
Defined.

(** ** The session id *)

(** No creation call is pending. *)
Lemma settled_step (s : State) (e : event) :
  List.length (filter isAwaitCreate (pending s)) = 0 ->
  sessionId (step s e) = sessionId s
  /\ List.length (filter isAwaitCreate (pending (step s e))) = 0.
Proof.
  intros H0. events s e;
    try (pose proof (filter_removeAt isAwaitCreate _ _ Hi) as Hrm; cbn in Hrm);
    rewrite ?filter_app_length; cbn; (split; [reflexivity || lia | lia]).
Qed.

Lemma settled_run (es : list event) (s : State) :
  List.length (filter isAwaitCreate (pending s)) = 0 ->
  sessionId (run s es) = sessionId s.
Proof.
  revert s. induction es as [|e es IH]; intros s H0; [reflexivity|].
  change (run s (e :: es)) with (run (step s e) es).
  destruct (settled_step s e H0) as [Hs H1]. now rewrite IH.
Qed.

Lemma creation_pending_once (ls : Storage) (es : list event) (i : nat) :
  nth_error (pending (run (boot ls) es)) i = Some AwaitCreate ->
  List.length (filter isAwaitCreate (removeAt i (pending (run (boot ls) es)))) = 0.
Proof.
  intros Hi.
  assert (H : creation_inv (run (boot ls) es)).
  { apply run_invariant; [apply creation_inv_step | apply creation_inv_boot]. }
  destruct H as (_ & Hc & _).
  pose proof (filter_removeAt isAwaitCreate _ _ Hi) as Hrm. cbn in Hrm. lia.
Qed.

(** X8. The session id is assigned once: whatever the creation call
    leaves in [sessionId] when it resolves stays there for the rest of
    the page's life. *)
Theorem session_id_never_changes (ls : Storage) (es es' : list event)
        (i : nat) (data : json) :
  nth_error (pending (run (boot ls) es)) i = Some AwaitCreate ->
  sessionId (run (step (run (boot ls) es) (FetchResolved i data)) es')
  = sessionId (step (run (boot ls) es) (FetchResolved i data)).
Proof.
  intros Hi. apply settled_run.
  pose proof (creation_pending_once ls es i Hi) as H0.
  set (s := run (boot ls) es) in *.
  handler. rewrite Hi. cbn. split_cases; rewrite ?filter_app_length; cbn; lia.
Qed.

Lemma session_id_never_changes_witness :
  sessionId (run (step (run (boot fresh) [Input hi; Send]) (FetchResolved 0 sessionReply))
                 [FetchRejected 0; ThemeToggle; Input hi; Send])
  = sessionId (step (run (boot fresh) [Input hi; Send]) (FetchResolved 0 sessionReply)).
Proof.
  apply (session_id_never_changes fresh [Input hi; Send]). reflexivity.
Defined.

(** X9. When the creation call rejects the page has no session and never
    gets one: the id stays [null] whatever happens later, so every later
    message and diagram fetch goes out with [null]. *)
Theorem rejected_creation_leaves_no_session (ls : Storage) (es es' : list event)
        (i : nat) :
  nth_error (pending (run (boot ls) es)) i = Some AwaitCreate ->
  sessionId (run (step (run (boot ls) es) (FetchRejected i)) es') = Some JNull.
Proof.
  intros Hi.
  assert (H : creation_inv (run (boot ls) es)).
  { apply run_invariant; [apply creation_inv_step | apply creation_inv_boot]. }
  destruct H as (_ & _ & Hn).
  pose proof (creation_pending_once ls es i Hi) as H0.
  set (s := run (boot ls) es) in *.
  rewrite settled_run.
  - handler. rewrite Hi. cbn. apply Hn. eapply nth_error_In, Hi.
  - handler. rewrite Hi. cbn. exact H0.
Qed.

Lemma rejected_creation_witness :
  sessionId (run (step (boot fresh) (FetchRejected 0)) [Input hi; Send]) = Some JNull.
Proof.
  apply (rejected_creation_leaves_no_session fresh [] [Input hi; Send] 0).
  reflexivity.
Defined.

(** ** The diagram *)

Lemma nth_error_removeAt_lt {A} (l : list A) :
  forall i j, i < j -> nth_error (removeAt j l) i = nth_error l i.
Proof.
  induction l as [|x l IH]; intros i j Hlt.
  - unfold removeAt. destruct j; [lia|]. now destruct i.
  - destruct j as [|j]; [lia|]. rewrite removeAt_cons.
    destruct i as [|i]; [reflexivity|]. cbn. apply IH. lia.
Qed.

(** X10. Diagram replies are applied in the order they arrive, not in
    the order they were asked for: when the reply to a later fetch comes
    first and the reply to an earlier one after it, the page ends up
    showing the earlier, stale diagram. *)
Theorem stale_diagram_wins (s : State) (i j : nat) (older newer : json) :
  i < j ->
  nth_error (pending s) i = Some AwaitViz ->
  nth_error (pending s) j = Some AwaitViz ->
  older <> JNull -> newer <> JNull ->
  diagram (run s [FetchResolved j newer; FetchResolved i older])
  = fieldAt [lit "diagram"] (Some older)
  /\ effects (run s [FetchResolved j newer; FetchResolved i older])
     = effects s ++ [MermaidRun (fieldAt [lit "diagram"] (Some newer));
                     MermaidRun (fieldAt [lit "diagram"] (Some older))].
Proof.
  intros Hlt Hi Hj Ho Hn.
  pose proof (nth_error_removeAt_lt (pending s) Hlt) as Hi'. rewrite Hi in Hi'.
  remember (fieldAt [lit "diagram"] (Some older)) as d1.
  remember (fieldAt [lit "diagram"] (Some newer)) as d2.
  unfold run. cbn [fold_left]. handler. rewrite Hj. cbn. rewrite (prop_fieldAt _ Hn), <- Heqd2. cbn.
  rewrite Hi'. cbn. rewrite (prop_fieldAt _ Ho), <- Heqd1. cbn.
  rewrite <- app_assoc. split; reflexivity.
Qed.

Lemma stale_diagram_witness :
  diagram (run twoFetches [FetchResolved 1 diagramReply; FetchResolved 0 emptyReply])
  = None.
Proof.
  apply (@stale_diagram_wins twoFetches 0 1 emptyReply diagramReply).
  - lia.
  - vm_compute. reflexivity.
  - vm_compute. reflexivity.
  - discriminate.
  - discriminate.
Defined.

(** ** Settings across a reload *)

Lemma boot_settings (ls : Storage) :
  customImages (boot ls) = storedImages ls
  /\ isDarkMode (boot ls) = storedTheme ls
  /\ bodyClass (boot ls) = themeName (storedTheme ls)
  /\ userAvatarPreview (boot ls) = previewOf (userAvatar (storedImages ls))
  /\ botAvatarPreview (boot ls) = previewOf (botAvatar (storedImages ls))
  /\ themeToggle (boot ls) = Sun
  /\ localStorage (boot ls) = ls.
Proof.
  unfold storedImages, storedTheme. handler.
  destruct ls as [[c|] theme]; cbn; destruct (present theme); repeat split.
Qed.

Lemma settings_inv_boot (ls : Storage) : settings_inv (boot ls).
Proof.
  destruct (boot_settings ls) as (Hc & Hd & Hb & Hu & Hp & _ & Hl).
  unfold settings_inv. rewrite Hl, Hc, Hd, Hb, Hu, Hp. repeat split.
Qed.

Lemma settings_inv_step (s : State) (e : event) :
  accepted e = true -> settings_inv s -> settings_inv (step s e).
Proof.
  unfold settings_inv, storedImages. intros He (Hc & Hb & Hu & Hp).
  events s e; try discriminate He; repeat split; assumption.
Qed.

Lemma accepted_run (I : State -> Prop) :
  (forall s e, accepted e = true -> I s -> I (step s e)) ->
  forall es s, forallb accepted es = true -> I s -> I (run s es).
Proof.
  intros Hstep es. induction es as [|e es IH]; intros s Ha Hs.
  - exact Hs.
  - cbn in Ha. apply andb_prop in Ha as [He Ha].
    change (run s (e :: es)) with (run (step s e) es).
    apply IH; [exact Ha|]. now apply Hstep.
Qed.

(** X11. Settings survive a reload: as long as the store took every
    write and no text shown on the page has made an element of its own,
    loading the page again on the store as the page left it, at any
    moment, gives back the same avatars, the same theme with its body
    class, and the same two previews. *)
Theorem settings_survive_reload (ls : Storage) (es : list event) :
  forallb accepted es = true ->
  inertRun (boot ls) es = true ->
  customImages (boot (localStorage (run (boot ls) es)))
  = customImages (run (boot ls) es)
  /\ isDarkMode (boot (localStorage (run (boot ls) es)))
     = isDarkMode (run (boot ls) es)
  /\ bodyClass (boot (localStorage (run (boot ls) es)))
     = bodyClass (run (boot ls) es)
  /\ userAvatarPreview (boot (localStorage (run (boot ls) es)))
     = userAvatarPreview (run (boot ls) es)
  /\ botAvatarPreview (boot (localStorage (run (boot ls) es)))
     = botAvatarPreview (run (boot ls) es).
Proof.
  intros Ha _.
  assert (Hs : settings_inv (run (boot ls) es)).
  { apply accepted_run; [apply settings_inv_step | exact Ha | apply settings_inv_boot]. }
  assert (Hr : theme_read (run (boot ls) es)).
  { apply accepted_run; [intros s e He; now apply theme_read_step
                        | exact Ha | apply theme_read_boot]. }
  destruct Hs as (Hc & Hb & Hu & Hp). unfold theme_read in Hr.
  destruct (boot_settings (localStorage (run (boot ls) es)))
    as (-> & -> & -> & -> & -> & _).
  rewrite Hc, <- Hr, Hb, Hu, Hp. repeat split.
Qed.

Lemma settings_survive_reload_witness :
  customImages (boot (localStorage (run (boot fresh) uploadAndToggle)))
  = {| userAvatar := Some pngURL; botAvatar := None |}.
Proof.
  destruct (@settings_survive_reload fresh uploadAndToggle) as (H & _).
  - reflexivity.
  - vm_compute. reflexivity.
  - exact H.
Defined.

(** ** Avatars, accepted and reset *)

(** X12. When the read of an uploaded user avatar completes, on a page
    where no text has made an element of its own, the image is kept in
    [customImages] and shown in the user preview; the bot avatar, its
    preview, the conversation, the loading state and the session are
    untouched, whatever happened while the file was being read.  When the
    store takes the writes, the whole settings snapshot is in the store
    afterwards.  When it refuses the images, the store is as before: the
    new avatar is shown, and a reload will not bring it back. *)
Theorem user_avatar_upload_completes (s : State) (i : nat) (url : jsstring) :
  inert s = true ->
  nth_error (pending s) i = Some AwaitReadUser ->
  (customImages (step s (FileLoaded i url))
   = {| userAvatar := Some url; botAvatar := botAvatar (customImages s) |}
   /\ userAvatarPreview (step s (FileLoaded i url)) = previewOf (Some url)
   /\ botAvatarPreview (step s (FileLoaded i url)) = botAvatarPreview s
   /\ localStorage (step s (FileLoaded i url)) = snapshot (step s (FileLoaded i url))
   /\ isDarkMode (step s (FileLoaded i url)) = isDarkMode s
   /\ messagesArea (step s (FileLoaded i url)) = messagesArea s
   /\ isLoading (step s (FileLoaded i url)) = isLoading s
   /\ sessionId (step s (FileLoaded i url)) = sessionId s
   /\ pending (step s (FileLoaded i url)) = removeAt i (pending s))
  /\ (customImages (step s (StoreRefuses ImagesWrite (Loading i url)))
      = {| userAvatar := Some url; botAvatar := botAvatar (customImages s) |}
      /\ userAvatarPreview (step s (StoreRefuses ImagesWrite (Loading i url)))
         = previewOf (Some url)
      /\ localStorage (step s (StoreRefuses ImagesWrite (Loading i url)))
         = localStorage s
      /\ effects (step s (StoreRefuses ImagesWrite (Loading i url)))
         = effects s
           ++ [SetItemImages {| userAvatar := Some url;
                                botAvatar := botAvatar (customImages s) |}]
      /\ pending (step s (StoreRefuses ImagesWrite (Loading i url)))
         = removeAt i (pending s)).
Proof.
  intros _ Hi. unfold snapshot. handler. rewrite Hi. cbn. repeat split.
Qed.

Lemma user_avatar_upload_witness :
  customImages (step readingPage (FileLoaded 1 pngURL))
  = {| userAvatar := Some pngURL; botAvatar := None |}.
Proof.
  destruct (@user_avatar_upload_completes readingPage 1 pngURL) as ((H & _) & _).
  - vm_compute. reflexivity.
  - reflexivity.
  - exact H.
Defined.

(** X13. The same for the bot avatar: kept and previewed, the user avatar
    and everything about the conversation as it was; persisted when the
    store takes the writes, and only shown when it refuses the images. *)
Theorem bot_avatar_upload_completes (s : State) (i : nat) (url : jsstring) :
  inert s = true ->
  nth_error (pending s) i = Some AwaitReadBot ->
  (customImages (step s (FileLoaded i url))
   = {| userAvatar := userAvatar (customImages s); botAvatar := Some url |}
   /\ botAvatarPreview (step s (FileLoaded i url)) = previewOf (Some url)
   /\ userAvatarPreview (step s (FileLoaded i url)) = userAvatarPreview s
   /\ localStorage (step s (FileLoaded i url)) = snapshot (step s (FileLoaded i url))
   /\ isDarkMode (step s (FileLoaded i url)) = isDarkMode s
   /\ messagesArea (step s (FileLoaded i url)) = messagesArea s
   /\ isLoading (step s (FileLoaded i url)) = isLoading s
   /\ sessionId (step s (FileLoaded i url)) = sessionId s
   /\ pending (step s (FileLoaded i url)) = removeAt i (pending s))
  /\ (customImages (step s (StoreRefuses ImagesWrite (Loading i url)))
      = {| userAvatar := userAvatar (customImages s); botAvatar := Some url |}
      /\ botAvatarPreview (step s (StoreRefuses ImagesWrite (Loading i url)))
         = previewOf (Some url)
      /\ localStorage (step s (StoreRefuses ImagesWrite (Loading i url)))
         = localStorage s
      /\ effects (step s (StoreRefuses ImagesWrite (Loading i url)))
         = effects s
           ++ [SetItemImages {| userAvatar := userAvatar (customImages s);
                                botAvatar := Some url |}]
      /\ pending (step s (StoreRefuses ImagesWrite (Loading i url)))
         = removeAt i (pending s)).
Proof.
  intros _ Hi. unfold snapshot. handler. rewrite Hi. cbn. repeat split.
Qed.

Lemma bot_avatar_upload_witness :
  customImages (step (run (boot fresh) [BotAvatarChange [smallFile]]) (FileLoaded 1 pngURL))
  = {| userAvatar := None; botAvatar := Some pngURL |}.
Proof.
  destruct (@bot_avatar_upload_completes
              (run (boot fresh) [BotAvatarChange [smallFile]]) 1 pngURL)
    as ((H & _) & _).
  - vm_compute. reflexivity.
  - reflexivity.
  - exact H.
Defined.

(** X14. Resetting an avatar clears that avatar only, puts its preview
    back to the upload prompt and writes the whole snapshot to the store;
    a second reset changes nothing more in the settings. *)
Theorem reset_avatar_clears_one (s : State) :
  (customImages (step s ResetUserAvatar)
   = {| userAvatar := None; botAvatar := botAvatar (customImages s) |}
   /\ userAvatarPreview (step s ResetUserAvatar)
      = {| previewImg := None; hasImage := false |}
   /\ botAvatarPreview (step s ResetUserAvatar) = botAvatarPreview s
   /\ localStorage (step s ResetUserAvatar) = snapshot (step s ResetUserAvatar)
   /\ customImages (step (step s ResetUserAvatar) ResetUserAvatar)
      = customImages (step s ResetUserAvatar)
   /\ localStorage (step (step s ResetUserAvatar) ResetUserAvatar)
      = localStorage (step s ResetUserAvatar))
  /\ (customImages (step s ResetBotAvatar)
      = {| userAvatar := userAvatar (customImages s); botAvatar := None |}
      /\ botAvatarPreview (step s ResetBotAvatar)
         = {| previewImg := None; hasImage := false |}
      /\ userAvatarPreview (step s ResetBotAvatar) = userAvatarPreview s
      /\ localStorage (step s ResetBotAvatar) = snapshot (step s ResetBotAvatar)
      /\ customImages (step (step s ResetBotAvatar) ResetBotAvatar)
         = customImages (step s ResetBotAvatar)
      /\ localStorage (step (step s ResetBotAvatar) ResetBotAvatar)
         = localStorage (step s ResetBotAvatar)).
Proof.
  unfold snapshot. handler. cbn. repeat split.
Qed.

(** ** The theme and its icon *)

Lemma quiet_step (s : State) (e : event) :
  isThemeToggle e = false ->
  themeToggle (step s e) = themeToggle s /\ isDarkMode (step s e) = isDarkMode s.
Proof.
  intros He. events s e; try discriminate; split; reflexivity.
Qed.

(** X15. Only [toggleTheme] changes the theme and the icon of its
    button, and [loadSettings] restores the theme without the icon: as
    long as the user has not toggled, the page shows the stored theme
    and the button shows the sun, on a light page too.  A toggle flips
    the theme and the body class; when the store takes the writes the
    icon follows, the sun on a dark page and the moon on a light one;
    when the store refuses one the icon stays as it was. *)
Theorem icon_follows_toggle_only (ls : Storage) (es : list event) :
  (forallb (fun e => negb (isThemeToggle e)) es = true ->
   themeToggle (run (boot ls) es) = Sun
   /\ isDarkMode (run (boot ls) es) = storedTheme ls)
  /\ (themeToggle (step (run (boot ls) es) ThemeToggle)
      = (if isDarkMode (run (boot ls) es) then Moon else Sun)
      /\ isDarkMode (step (run (boot ls) es) ThemeToggle)
         = negb (isDarkMode (run (boot ls) es))
      /\ bodyClass (step (run (boot ls) es) ThemeToggle)
         = themeName (negb (isDarkMode (run (boot ls) es))))
  /\ (forall w : write,
        themeToggle (step (run (boot ls) es) (StoreRefuses w Toggling))
        = themeToggle (run (boot ls) es)
        /\ isDarkMode (step (run (boot ls) es) (StoreRefuses w Toggling))
           = negb (isDarkMode (run (boot ls) es))
        /\ bodyClass (step (run (boot ls) es) (StoreRefuses w Toggling))
           = themeName (negb (isDarkMode (run (boot ls) es)))).
Proof.
  split; [|split].
  - destruct (boot_settings ls) as (_ & Hd & _ & _ & _ & Hi & _).
    rewrite <- Hd, <- Hi. generalize (boot ls). clear.
    induction es as [|e es IH]; intros s H; [split; reflexivity|].
    change (run s (e :: es)) with (run (step s e) es).
    cbn in H. apply andb_prop in H as [He H]. apply negb_true_iff in He.
    destruct (quiet_step s e He) as [<- <-]. now apply IH.
  - set (s := run (boot ls) es). handler. cbn.
    destruct (isDarkMode s); repeat split.
  - intros w. set (s := run (boot ls) es). handler. destruct w; cbn; repeat split.
Qed.

Lemma icon_follows_toggle_witness :
  themeToggle (run (boot lightStore) [Input hi; Send]) = Sun
  /\ isDarkMode (run (boot lightStore) [Input hi; Send]) = false.
Proof.
  destruct (@icon_follows_toggle_only lightStore [Input hi; Send]) as (H & _).
  apply H. reflexivity.
Defined.

(** ** Rendering of marked-up text *)

Lemma renderMarkdown_plain_witness :
  renderMarkdown (lit "<b>Tom & Jerry</b>") = lit "<b>Tom & Jerry</b>".
Proof. apply renderMarkdown_plain. vm_compute. reflexivity. Defined.

Lemma replaceAll_skip (m : matcher) (subst : jsstring -> jsstring) (P : N -> bool) :
  (forall c t, P c = true -> m (c :: t) = None) ->
  forall s, forallb P s = true -> replaceAll m subst s = s.
Proof.
  intros Hm s. unfold replaceAll.
  induction s as [|c t IH]; [reflexivity|]. cbn.
  intros H. apply andb_prop in H as [Hc Ht].
  rewrite (Hm c t Hc). f_equal. apply IH, Ht.
Qed.

Lemma boldPattern_notStar (c : N) (t : jsstring) :
  notStar c = true -> boldPattern (c :: t) = None.
Proof.
  unfold notStar. intros H. apply negb_true_iff in H. cbn.
  destruct t; [reflexivity|]. now rewrite H.
Qed.

Lemma italicPattern_notStar (c : N) (t : jsstring) :
  notStar c = true -> italicPattern (c :: t) = None.
Proof.
  unfold notStar. intros H. apply negb_true_iff in H. cbn. now rewrite H.
Qed.

Lemma codePattern_notBacktick (c : N) (t : jsstring) :
  notBacktick c = true -> codePattern (c :: t) = None.
Proof.
  unfold notBacktick. intros H. apply negb_true_iff in H. cbn. now rewrite H.
Qed.

Lemma newlinePattern_notNewline (c : N) (t : jsstring) :
  notNewline c = true -> newlinePattern (c :: t) = None.
Proof.
  unfold notNewline. intros H. apply negb_true_iff in H. cbn. now rewrite H.
Qed.

Lemma inline_facts (c : N) :
  inline c = true ->
  N.eqb c star = false /\ N.eqb c backtick = false /\ N.eqb c newline = false
  /\ isLineTerminator c = false.
Proof.
  unfold inline, plain. intros H.
  apply andb_prop in H as [H1 H2]. apply negb_true_iff in H1, H2.
  apply orb_false_elim in H1 as [H1 Hn]. apply orb_false_elim in H1 as [Hs Hb].
  auto.
Qed.

Lemma forallb_inline (P : N -> bool) (g : jsstring) :
  (forall c, inline c = true -> P c = true) ->
  forallb inline g = true -> forallb P g = true.
Proof.
  intros HP H. rewrite forallb_forall in *. intros c Hc. apply HP, H, Hc.
Qed.

Lemma inline_notStar (c : N) : inline c = true -> notStar c = true.
Proof. intros H. apply inline_facts in H as (H & _). unfold notStar. now rewrite H. Qed.

Lemma inline_notBacktick (c : N) : inline c = true -> notBacktick c = true.
Proof.
  intros H. apply inline_facts in H as (_ & H & _). unfold notBacktick. now rewrite H.
Qed.

Lemma inline_notNewline (c : N) : inline c = true -> notNewline c = true.
Proof.
  intros H. apply inline_facts in H as (_ & _ & H & _). unfold notNewline. now rewrite H.
Qed.

(** The closing marker is found right after an inline run. *)
Lemma lazyUntilStars_inline (g rest : jsstring) :
  forallb inline g = true ->
  lazyUntilStars (g ++ star :: star :: rest) = Some (g, rest).
Proof.
  induction g as [|c g IH]; intros H.
  - reflexivity.
  - cbn in H. apply andb_prop in H as [Hc Hg].
    apply inline_facts in Hc as (Hs & _ & _ & Hl).
    change ((c :: g) ++ star :: star :: rest) with (c :: (g ++ star :: star :: rest)).
    cbn [lazyUntilStars]. rewrite (IH Hg), Hs, Hl. cbn.
    destruct (g ++ star :: star :: rest) eqn:E; [|reflexivity].
    now destruct g.
Qed.

Lemma lazyUntilStar_inline (g rest : jsstring) :
  forallb inline g = true ->
  lazyUntilStar (g ++ star :: rest) = Some (g, rest).
Proof.
  induction g as [|c g IH]; intros H.
  - reflexivity.
  - cbn in H. apply andb_prop in H as [Hc Hg].
    apply inline_facts in Hc as (Hs & _ & _ & Hl).
    cbn. now rewrite (IH Hg), Hs, Hl.
Qed.

Lemma untilBacktick_inline (g rest : jsstring) :
  forallb inline g = true ->
  untilBacktick (g ++ backtick :: rest) = Some (g, rest).
Proof.
  induction g as [|c g IH]; intros H.
  - reflexivity.
  - cbn in H. apply andb_prop in H as [Hc Hg].
    apply inline_facts in Hc as (_ & Hb & _).
    cbn. now rewrite (IH Hg), Hb.
Qed.

(** The three later passes leave a pass's output alone when it holds
    none of their markers. *)
Lemma later_passes_skip (s : jsstring) :
  forallb notStar s = true -> forallb notBacktick s = true ->
  forallb notNewline s = true ->
  replaceNewline (replaceCode (replaceItalic s)) = s.
Proof.
  intros Hs Hb Hn. unfold replaceItalic, replaceCode, replaceNewline.
  rewrite (@replaceAll_skip italicPattern emTag notStar italicPattern_notStar s Hs).
  rewrite (@replaceAll_skip codePattern codeTag notBacktick codePattern_notBacktick s Hb).
  apply (@replaceAll_skip newlinePattern brTag notNewline newlinePattern_notNewline s Hn).
Qed.

Lemma wrapped_skip (P : N -> bool) (open close g : jsstring) :
  forallb P open = true -> forallb P close = true ->
  (forall c, inline c = true -> P c = true) ->
  forallb inline g = true ->
  forallb P (open ++ g ++ close) = true.
Proof.
  intros Ho Hc HP Hg. rewrite !forallb_app, Ho, Hc, (@forallb_inline P g HP Hg).
  reflexivity.
Qed.

Lemma replaceBold_wrapped (g rest : jsstring) :
  forallb inline g = true ->
  replaceBold (star :: star :: g ++ star :: star :: rest)
  = strongTag g ++ replaceBold rest.
Proof.
  intros Hg. rewrite replaceBold_cons. cbn [boldPattern].
  change (N.eqb star star && N.eqb star star) with true. cbn iota.
  now rewrite (lazyUntilStars_inline g rest Hg).
Qed.

Lemma replaceBold_inline_star (g : jsstring) :
  forallb inline g = true -> replaceBold (g ++ [star]) = g ++ [star].
Proof.
  induction g as [|c g IH]; intros H.
  - reflexivity.
  - cbn in H. apply andb_prop in H as [Hc Hg].
    change ((c :: g) ++ [star]) with (c :: (g ++ [star])).
    rewrite replaceBold_cons, boldPattern_notStar by now apply inline_notStar.
    now rewrite IH.
Qed.

(** The bold pass leaves a pair of single stars alone. *)
Lemma replaceBold_single_stars (g : jsstring) :
  forallb inline g = true ->
  replaceBold (star :: g ++ [star]) = star :: g ++ [star].
Proof.
  intros Hg. rewrite replaceBold_cons.
  assert (Hb : boldPattern (star :: g ++ [star]) = None).
  { destruct g as [|c g]; [reflexivity|]. cbn in Hg.
    apply andb_prop in Hg as [Hc _]. apply inline_facts in Hc as (Hs & _).
    unfold boldPattern. cbn [app]. now rewrite Hs, andb_false_r. }
  rewrite Hb. now rewrite replaceBold_inline_star.
Qed.

Lemma replaceItalic_wrapped (g : jsstring) :
  forallb inline g = true ->
  replaceItalic (star :: g ++ [star]) = emTag g.
Proof.
  intros Hg. rewrite replaceItalic_cons. cbn [italicPattern].
  change (N.eqb star star) with true. cbn iota.
  rewrite (lazyUntilStar_inline g [] Hg). now rewrite app_nil_r.
Qed.


Lemma replaceCode_wrapped (x : N) (g : jsstring) :
  forallb inline (x :: g) = true ->
  replaceCode (backtick :: (x :: g) ++ [backtick]) = codeTag (x :: g).
Proof.
  intros Hg. rewrite replaceCode_cons. cbn [codePattern].
  change (N.eqb backtick backtick) with true. cbn iota.
  rewrite (untilBacktick_inline (x :: g) [] Hg). cbn iota.
  change (replaceCode []) with (@nil N). now rewrite app_nil_r.
Qed.

Lemma bold_rendered (g : jsstring) :
  forallb inline g = true ->
  renderMarkdown ([star; star] ++ g ++ [star; star]) = strongTag g.
Proof.
  intros Hg. unfold renderMarkdown. cbn [app].
  rewrite (replaceBold_wrapped g [] Hg).
  change (replaceBold []) with (@nil N). rewrite app_nil_r.
  unfold strongTag.
  apply later_passes_skip; apply wrapped_skip;
    auto using inline_notStar, inline_notBacktick, inline_notNewline.
Qed.

Lemma italic_rendered (g : jsstring) :
  forallb inline g = true ->
  renderMarkdown ([star] ++ g ++ [star]) = emTag g.
Proof.
  intros Hg. unfold renderMarkdown. cbn [app].
  rewrite (replaceBold_single_stars g Hg), (replaceItalic_wrapped g Hg).
  unfold emTag, replaceCode, replaceNewline.
  rewrite (@replaceAll_skip codePattern codeTag notBacktick codePattern_notBacktick);
    [|apply wrapped_skip; auto using inline_notBacktick].
  apply (@replaceAll_skip newlinePattern brTag notNewline newlinePattern_notNewline).
  apply wrapped_skip; auto using inline_notNewline.
Qed.

Lemma code_rendered (x : N) (g : jsstring) :
  forallb inline (x :: g) = true ->
  renderMarkdown ([backtick] ++ (x :: g) ++ [backtick]) = codeTag (x :: g).
Proof.
  intros Hg. unfold renderMarkdown.
  assert (Hs : forallb notStar ([backtick] ++ (x :: g) ++ [backtick]) = true).
  { apply wrapped_skip; auto using inline_notStar. }
  unfold replaceBold, replaceItalic.
  rewrite (@replaceAll_skip boldPattern strongTag notStar boldPattern_notStar _ Hs).
  rewrite (@replaceAll_skip italicPattern emTag notStar italicPattern_notStar _ Hs).
  fold replaceCode. change ([backtick] ++ (x :: g) ++ [backtick])
    with (backtick :: (x :: g) ++ [backtick]).
  rewrite (@replaceCode_wrapped x g Hg). unfold codeTag.
  apply (@replaceAll_skip newlinePattern brTag notNewline newlinePattern_notNewline).
  rewrite !forallb_app, (@forallb_inline notNewline (x :: g) inline_notNewline Hg).
  reflexivity.
Qed.





(** X17. Bold: an inline text between double stars is wrapped in
    [<strong>], whatever the text is as long as it holds no marker and no
    line terminator. *)
Theorem renderMarkdown_bold (g : jsstring) :
  forallb inline g = true ->
  renderMarkdown ([star; star] ++ g ++ [star; star])
  = lit "<strong>" ++ g ++ lit "</strong>".
Proof. exact (@bold_rendered g). Qed.

Lemma renderMarkdown_bold_witness :
  renderMarkdown ([star; star] ++ lit "very <i>bold</i>" ++ [star; star])
  = lit "<strong>very <i>bold</i></strong>".
Proof.
  apply (@renderMarkdown_bold (lit "very <i>bold</i>")). vm_compute. reflexivity.
Defined.

(** X18. Italic: an inline text between single stars is wrapped in
    [<em>]; the bold pass before it leaves the single stars alone. *)
Theorem renderMarkdown_italic (g : jsstring) :
  forallb inline g = true ->
  renderMarkdown ([star] ++ g ++ [star]) = lit "<em>" ++ g ++ lit "</em>".
Proof. exact (@italic_rendered g). Qed.

Lemma renderMarkdown_italic_witness :
  renderMarkdown ([star] ++ lit "so-so" ++ [star]) = lit "<em>so-so</em>".
Proof.
  apply (@renderMarkdown_italic (lit "so-so")). vm_compute. reflexivity.
Defined.

(** X19. Inline code: a text that is not empty, between backticks, is
    wrapped in [<code>] with its style attribute; an empty pair of
    backticks is left as it is. *)
Theorem renderMarkdown_code (g : jsstring) :
  forallb inline g = true ->
  renderMarkdown ([backtick] ++ g ++ [backtick])
  = match g with
    | [] => [backtick; backtick]
    | _ :: _ =>
        lit "<code style=" ++ dquote
        ++ lit "background-color: rgba(156,163,175,0.2); padding: 0.125rem 0.25rem; border-radius: 0.25rem; font-size: 0.875rem;"
        ++ dquote ++ lit ">" ++ g ++ lit "</code>"
    end.
Proof.
  intros Hg. destruct g as [|x g]; [reflexivity|]. exact (@code_rendered x g Hg).
Qed.

Lemma renderMarkdown_code_witness :
  renderMarkdown ([backtick] ++ lit "x = 1" ++ [backtick])
  = codeOpen ++ lit "x = 1</code>".
Proof.
  apply (@renderMarkdown_code (lit "x = 1")). vm_compute. reflexivity.
Defined.

Lemma replaceNewline_no_newline (s : jsstring) : ~ In newline (replaceNewline s).
Proof.
  induction s as [|c t IH].
  - intros [].
  - rewrite replaceNewline_cons. destruct (N.eqb c newline) eqn:E.
    + intros H. apply in_app_or in H as [H|H]; [|now apply IH].
      vm_compute in H. intuition discriminate.
    + intros [H|H]; [|now apply IH]. subst c. discriminate E.
Qed.

(** X20. The rendered text never holds a line feed: every one of the
    source, wherever it stands, has become a [<br>]. *)
Theorem renderMarkdown_has_no_newline (text : jsstring) :
  ~ In newline (renderMarkdown text).
Proof. apply replaceNewline_no_newline. Qed.

(** ** Markers that are not closed *)

Lemma occurrences_cons (c x : N) (s : jsstring) :
  occurrences c (x :: s) = (if N.eqb x c then 1 else 0) + occurrences c s.
Proof.
  unfold occurrences. cbn. rewrite (N.eqb_sym c x). now destruct (N.eqb x c).
Qed.

Lemma lazyUntilStar_none (t : jsstring) :
  occurrences star t = 0 -> lazyUntilStar t = None.
Proof.
  induction t as [|c t IH]; [reflexivity|]. rewrite occurrences_cons. cbn.
  destruct (N.eqb c star); [discriminate|]. intros H. rewrite (IH H).
  now destruct (isLineTerminator c).
Qed.

Lemma untilBacktick_none (t : jsstring) :
  occurrences backtick t = 0 -> untilBacktick t = None.
Proof.
  induction t as [|c t IH]; [reflexivity|]. rewrite occurrences_cons. cbn.
  destruct (N.eqb c backtick); [discriminate|]. intros H. now rewrite (IH H).
Qed.

Lemma replaceBold_lone (s : jsstring) :
  occurrences star s <= 1 -> replaceBold s = s.
Proof.
  induction s as [|c t IH]; [reflexivity|]. rewrite occurrences_cons.
  intros H. rewrite replaceBold_cons.
  assert (Hb : boldPattern (c :: t) = None).
  { unfold boldPattern. destruct t as [|d t']; [reflexivity|].
    rewrite occurrences_cons in H.
    destruct (N.eqb c star), (N.eqb d star); try reflexivity. cbn in H. lia. }
  rewrite Hb, IH; [reflexivity|]. destruct (N.eqb c star); lia.
Qed.

Lemma replaceItalic_lone (s : jsstring) :
  occurrences star s <= 1 -> replaceItalic s = s.
Proof.
  induction s as [|c t IH]; [reflexivity|]. rewrite occurrences_cons.
  intros H. rewrite replaceItalic_cons.
  assert (Hi : italicPattern (c :: t) = None).
  { unfold italicPattern. destruct (N.eqb c star); [|reflexivity].
    apply lazyUntilStar_none. cbn in H. lia. }
  rewrite Hi, IH; [reflexivity|]. destruct (N.eqb c star); lia.
Qed.

Lemma replaceCode_lone (s : jsstring) :
  occurrences backtick s <= 1 -> replaceCode s = s.
Proof.
  induction s as [|c t IH]; [reflexivity|]. rewrite occurrences_cons.
  intros H. rewrite replaceCode_cons.
  assert (Hc : codePattern (c :: t) = None).
  { unfold codePattern. destruct (N.eqb c backtick); [|reflexivity].
    rewrite untilBacktick_none; [reflexivity|]. cbn in H. lia. }
  rewrite Hc, IH; [reflexivity|]. destruct (N.eqb c backtick); lia.
Qed.

Lemma replaceNewline_none (s : jsstring) :
  occurrences newline s = 0 -> replaceNewline s = s.
Proof.
  induction s as [|c t IH]; [reflexivity|]. rewrite occurrences_cons.
  intros H. rewrite replaceNewline_cons.
  destruct (N.eqb c newline); [discriminate|]. now rewrite IH.
Qed.

(** X21. A marker without a partner is not markup: a text on one line
    with at most one star and at most one backtick is rendered exactly as
    it is. *)
Theorem unclosed_markers_pass_through (text : jsstring) :
  occurrences star text <= 1 ->
  occurrences backtick text <= 1 ->
  occurrences newline text = 0 ->
  renderMarkdown text = text.
Proof.
  intros Hs Hb Hn. unfold renderMarkdown.
  now rewrite replaceBold_lone, replaceItalic_lone, replaceCode_lone,
    replaceNewline_none.
Qed.

Lemma unclosed_markers_witness :
  renderMarkdown (lit "2 * 3 is `six") = lit "2 * 3 is `six".
Proof.
  apply unclosed_markers_pass_through; vm_compute; lia.
Defined.
